(** * restore_credentials.py: batch update of data source credentials

    A shallow embedding of [restore_credentials.py] and the properties of
    its two entry points, [build_datasources_csv] and
    [update_datasources_from_csv].

    What is modelled, and how:
    - values decoded from response bodies are [json] terms, with Python's
      subscript, [in], iteration and [str] written out on them, including
      the exceptions they raise on a value of the wrong shape; JSON numbers
      are the integers;
    - a cell of a [csv.DictReader] row is [option string]: [None] is
      Python's [None], which the reader puts where a line is shorter than
      the header; a row is the dict of its string keys;
    - a file is the list of field lists that [csv.reader] yields and
      [csv.writer] is given: quoting and line endings are the csv module's;
    - the dicts [sites] and [updates] keep insertion order, as Python's do;
    - the server is a transition function [serve] on a state of its own;
      [requests] refuses a header value that is no string and otherwise
      delivers every request and hands back a status code and a body
      (no transport failure is modelled);
    - functions that print, send requests or touch files run in the monad
      [M]: a world in, a result or an exception and a world out. The
      program has no [try]: an exception ends the run.

    The loops of the two entry points are named after what they iterate
    over ([add_row], [update_connection], [update_site], [walk_source],
    [walk_site], ...); the functions of the source keep their names. *)

From Stdlib Require Import ZArith String Ascii List Bool Lia DecimalString.
From stdpp Require Import base option list gmap strings.
Import ListNotations.
Set Warnings "-register-all".
Local Open Scope string_scope.
Local Open Scope list_scope.

(** ** Python values and exceptions *)

Inductive exn : Type :=
| KeyError (key : string)
| TypeError
| IndexError
| ValueError (msg : string)
| JSONDecodeError
| InvalidHeader
| FileNotFoundError.

Inductive result (A : Type) : Type :=
| Ok (a : A)
| Raise (e : exn).
Arguments Ok {A} a.
Arguments Raise {A} e.

Definition rbind {A B} (r : result A) (k : A -> result B) : result B :=
  match r with
  | Ok a => k a
  | Raise e => Raise e
  end.

#[global] Instance result_ret : MRet result := fun A a => Ok a.
#[global] Instance result_bind : MBind result := fun A B k r => rbind r k.

(** A decoded JSON document ([json.loads]): numbers are the integers. An
    object is kept as its key/value list; a key is looked up at its first
    binding. *)
Inductive json : Type :=
| JNull
| JBool (b : bool)
| JNum (n : Z)
| JStr (s : string)
| JArr (items : list json)
| JObj (fields : list (string * json)).

Fixpoint assoc {V} (k : string) (kvs : list (string * V)) : option V :=
  match kvs with
  | [] => None
  | (k', v) :: rest => if String.eqb k k' then Some v else assoc k rest
  end.

(** [j[k]] for a string [k]. *)
Definition py_getitem (j : json) (k : string) : result json :=
  match j with
  | JObj kvs =>
      match assoc k kvs with
      | Some v => Ok v
      | None => Raise (KeyError k)
      end
  | _ => Raise TypeError
  end.

Fixpoint is_prefix (p s : string) : bool :=
  match p, s with
  | EmptyString, _ => true
  | String a p', String b s' => if Ascii.eqb a b then is_prefix p' s' else false
  | String _ _, EmptyString => false
  end.

Fixpoint is_substring (p s : string) : bool :=
  is_prefix p s ||
  match s with
  | EmptyString => false
  | String _ s' => is_substring p s'
  end.

Definition is_jstr (k : string) (j : json) : bool :=
  match j with
  | JStr s => String.eqb k s
  | _ => false
  end.

(** [k in j] for a string [k]: a key of a dict, an element of a list, a
    substring of a string. *)
Definition py_contains (k : string) (j : json) : result bool :=
  match j with
  | JObj kvs => Ok (bool_decide (is_Some (assoc k kvs)))
  | JArr l => Ok (existsb (is_jstr k) l)
  | JStr s => Ok (is_substring k s)
  | _ => Raise TypeError
  end.

Fixpoint chars (s : string) : list json :=
  match s with
  | EmptyString => []
  | String c s' => JStr (String c EmptyString) :: chars s'
  end.

(** The items of [for x in j]. *)
Definition py_iter (j : json) : result (list json) :=
  match j with
  | JArr l => Ok l
  | JObj kvs => Ok (map (fun kv => JStr (fst kv)) kvs)
  | JStr s => Ok (chars s)
  | _ => Raise TypeError
  end.

Definition decimal (n : Z) : string := NilZero.string_of_int (Z.to_int n).

(** Equality of two hashable values as dict keys: [True == 1]. *)
Definition key_eqb (a b : json) : bool :=
  match a, b with
  | JNull, JNull => true
  | JBool x, JBool y => Bool.eqb x y
  | JNum x, JNum y => Z.eqb x y
  | JBool x, JNum y | JNum y, JBool x => Z.eqb (if x then 1 else 0) y
  | JStr x, JStr y => String.eqb x y
  | _, _ => false
  end.

Definition hashable (j : json) : bool :=
  match j with
  | JArr _ | JObj _ => false
  | _ => true
  end.

(** A dict in insertion order. [od_set] is [d[k] = v]: the value of a key
    already there is replaced in place, a new key goes to the end. *)
Section odict.
Context {K V : Type} (eqb : K -> K -> bool).

Fixpoint od_get (k : K) (d : list (K * V)) : option V :=
  match d with
  | [] => None
  | (k', v) :: rest => if eqb k k' then Some v else od_get k rest
  end.

Definition od_mem (k : K) (d : list (K * V)) : bool :=
  match od_get k d with
  | Some _ => true
  | None => false
  end.

Fixpoint od_set (k : K) (v : V) (d : list (K * V)) : list (K * V) :=
  match d with
  | [] => [(k, v)]
  | (k', v') :: rest =>
      if eqb k k' then (k', v) :: rest else (k', v') :: od_set k v rest
  end.
End odict.

Abbreviation cell := (option string).

Definition cell_eqb (a b : cell) : bool := bool_decide (a = b).

(** [str(c)], as [format] renders a cell. *)
Definition cell_str (c : cell) : string :=
  match c with
  | Some s => s
  | None => "None"
  end.

Definition json_of_cell (c : cell) : json :=
  match c with
  | Some s => JStr s
  | None => JNull
  end.

(** [len(c)] *)
Definition cell_len (c : cell) : result nat :=
  match c with
  | Some s => Ok (String.length s)
  | None => Raise TypeError
  end.

Fixpoint last_char (a : ascii) (s : string) : ascii :=
  match s with
  | EmptyString => a
  | String b s' => last_char b s'
  end.

(** [c[0]] *)
Definition cell_first (c : cell) : result string :=
  match c with
  | Some (String a _) => Ok (String a EmptyString)
  | Some EmptyString => Raise IndexError
  | None => Raise TypeError
  end.

(** [c[-1]] *)
Definition cell_last (c : cell) : result string :=
  match c with
  | Some (String a s) => Ok (String (last_char a s) EmptyString)
  | Some EmptyString => Raise IndexError
  | None => Raise TypeError
  end.

Definition nl : string := String "010"%char EmptyString.

(** [c[0] + '...' + c[-1]], the password as the log shows it. *)
Definition redact (c : cell) : result string :=
  a ← cell_first c;
  b ← cell_last c;
  Ok (a +:+ "..." +:+ b).

(** ** Files and [csv.DictReader] *)

Definition csv_file : Type := list (list string).

(** A row of [csv.DictReader]: the dict of its string keys. (Fields beyond
    the header go under the key [None], which no subscript of the program
    reaches.) *)
Definition mk_row (fieldnames line : list string) : gmap string cell :=
  let d := fold_left (fun d kv => <[fst kv := Some (snd kv)]> d)
                     (zip fieldnames line) (∅ : gmap string cell) in
  fold_left (fun d k => <[k := None]> d) (drop (length line) fieldnames) d.

(** The first line is the header; blank lines are skipped. *)
Definition DictReader (f : csv_file) : list (gmap string cell) :=
  match f with
  | [] => []
  | fieldnames :: lines =>
      map (mk_row fieldnames) (filter (fun l => l <> []) lines)
  end.

(** [row[k]] *)
Definition row_get (row : gmap string cell) (k : string) : result cell :=
  match row !! k with
  | Some c => Ok c
  | None => Raise (KeyError k)
  end.

Fixpoint foldR {A B} (f : B -> A -> result B) (l : list A) (b : B) : result B :=
  match l with
  | [] => Ok b
  | a :: l' => b' ← f b a; foldR f l' b'
  end.

(** ** The import reader: lines 231-255 of [update_datasources_from_csv] *)

Record connection_update : Type := {
  connection_id : cell;
  username : cell;
  password : cell
}.

Record datasource_entry : Type := {
  datasource_name : cell;
  connections : list connection_update
}.

Record site_entry : Type := {
  site_id : cell;
  site_name : cell;
  datasources : list (cell * datasource_entry)
}.

(** The dict [updates]: site content URL to site entry. *)
Definition update_plan : Type := list (cell * site_entry).

Definition username_message : string :=
  "Updated username must be provided, even if you are not changing the value.".

Definition password_message : string :=
  "Updated password must be provided, even if you are not changing the value.".

(** [len(row[k]) == 0 or row[k] is None], left to right. *)
Definition not_provided (row : gmap string cell) (k : string) : result bool :=
  v ← row_get row k;
  n ← cell_len v;
  if Nat.eqb n 0 then Ok true
  else v' ← row_get row k;
       Ok (match v' with None => true | Some _ => false end).

(** [d[k]] on a dict that is keyed by cells. *)
Definition od_lookup {V} (k : cell) (d : list (cell * V)) : result V :=
  match od_get cell_eqb k d with
  | Some v => Ok v
  | None => Raise (KeyError (cell_str k))
  end.

(** One turn of [for row in reader]. *)
Definition add_row (updates : update_plan) (row : gmap string cell)
  : result update_plan :=
  no_username ← not_provided row "updated_username";
  if (no_username : bool) then Raise (ValueError username_message) else
  no_password ← not_provided row "updated_password";
  if (no_password : bool) then Raise (ValueError password_message) else
  site ← row_get row "site_content_url";
  updates ← (if od_mem cell_eqb site updates then Ok updates
             else sid ← row_get row "site_id";
                  sname ← row_get row "site_name";
                  Ok (od_set cell_eqb site
                        {| site_id := sid; site_name := sname;
                           datasources := [] |} updates));
  ds ← row_get row "datasource_id";
  site_data ← od_lookup site updates;
  dss ← (if od_mem cell_eqb ds (datasources site_data)
         then Ok (datasources site_data)
         else dname ← row_get row "datasource_name";
              Ok (od_set cell_eqb ds
                    {| datasource_name := dname; connections := [] |}
                    (datasources site_data)));
  datasource_data ← od_lookup ds dss;
  cid ← row_get row "connection_id";
  u ← row_get row "updated_username";
  p ← row_get row "updated_password";
  let connection :=
    {| connection_id := cid; username := u; password := p |} in
  let datasource_data :=
    {| datasource_name := datasource_name datasource_data;
       connections := connections datasource_data ++ [connection] |} in
  let site_data :=
    {| site_id := site_id site_data;
       site_name := site_name site_data;
       datasources := od_set cell_eqb ds datasource_data dss |} in
  Ok (od_set cell_eqb site site_data updates).

(** The whole loop, from [updates = {}]. *)
Definition collect_updates (rows : list (gmap string cell)) : result update_plan :=
  foldR add_row rows [].

Definition datasource_total (dss : list (cell * datasource_entry)) : nat :=
  list_sum (map (fun e => length (connections (snd e))) dss).

(** The number of connection updates of a plan, over all sites and data
    sources. *)
Definition total_connections (updates : update_plan) : nat :=
  list_sum (map (fun e => datasource_total (datasources (snd e))) updates).

Definition header : list string :=
  [ "site_id"; "site_name"; "site_content_url";
    "datasource_id"; "datasource_name"; "datasource_content_url";
    "connection_id"; "connection_type"; "connection_server_address";
    "connection_server_port"; "connection_username";
    "updated_username"; "updated_password" ].

(** ** Requests and responses *)

Inductive method : Type := GET | POST | PUT.

Record request : Type := {
  meth : method;
  url : string;
  headers : list (string * json);
  payload : option json
}.

(** A response: [body] is [None] when the text is not a JSON document. *)
Record response : Type := {
  status_code : Z;
  body : option json
}.

(** [r.json()] *)
Definition resp_json (r : response) : result json :=
  match body r with
  | Some j => Ok j
  | None => Raise JSONDecodeError
  end.

(** [token = None] is [JNull]. *)
Definition get_request_headers (token : json) : list (string * json) :=
  let headers := [ ("Content-Type", JStr "application/json");
                   ("Accept", JStr "application/json") ] in
  match token with
  | JNull => headers
  | _ => headers ++ [("X-Tableau-Auth", token)]
  end.

(** The value of a site in the dict that [get_sites] returns. *)
Record site_info : Type := {
  name : json;
  contentUrl : json
}.

(** ** The flat export row *)

Module ConnectionRecord.
Record t : Type := {
  site_id : json;
  site_name : json;
  site_content_url : json;
  datasource_id : json;
  datasource_name : json;
  datasource_content_url : json;
  connection_id : json;
  connection_type : json;
  connection_server_address : json;
  connection_server_port : json;
  connection_username : json;
  updated_username : json;
  updated_password : json
}.

(** The values in the order of the writer's [fieldnames]. *)
Definition values (r : t) : list json :=
  [ site_id r; site_name r; site_content_url r;
    datasource_id r; datasource_name r; datasource_content_url r;
    connection_id r; connection_type r; connection_server_address r;
    connection_server_port r; connection_username r;
    updated_username r; updated_password r ].
End ConnectionRecord.

(** ** The program *)

Section Program.

(** Python's [repr] of a list or a dict, as [str] and [format] show it. *)
Variable py_repr : json -> string.

(** The four settings read from the environment. *)
Variables TABLEAU_SERVER_URL API_VERSION USERNAME PASSWORD : string.

(** The server: its state, and its answer to a request. *)
Variable S : Type.
Variable serve : S -> request -> S * response.

(** [str(j)] *)
Definition py_str (j : json) : string :=
  match j with
  | JNull => "None"
  | JBool true => "True"
  | JBool false => "False"
  | JNum n => decimal n
  | JStr s => s
  | JArr _ | JObj _ => py_repr j
  end.

(** A field as [csv.writer] writes it: [None] is the empty string. *)
Definition csv_field (j : json) : string :=
  match j with
  | JNull => ""
  | _ => py_str j
  end.

Record world : Type := {
  server : S;
  sent : list request;
  stdout : list string;
  files : gmap string csv_file
}.

Definition M (A : Type) : Type := world -> result A * world.

#[local] Instance M_ret : MRet M := fun A a w => (Ok a, w).

#[local] Instance M_bind : MBind M := fun A B k m w =>
  match m w with
  | (Ok a, w') => k a w'
  | (Raise e, w') => (Raise e, w')
  end.

Definition lift {A} (r : result A) : M A := fun w => (r, w).

Fixpoint foldM {A B} (f : B -> A -> M B) (l : list A) (b : B) : M B :=
  match l with
  | [] => mret b
  | a :: l' => b' ← f b a; foldM f l' b'
  end.

Definition for_each {A} (l : list A) (body : A -> M unit) : M unit :=
  foldM (fun _ a => body a) l tt.

(** The world after [line] was printed. *)
Definition printed (w : world) (line : string) : world :=
  {| server := server w; sent := sent w;
     stdout := stdout w ++ [line]; files := files w |}.

Definition print (line : string) : M unit := fun w => (Ok tt, printed w line).

(** The server's answer to [req], and the world after it was delivered. *)
Definition answer (w : world) (req : request) : response :=
  snd (serve (server w) req).

Definition deliver (w : world) (req : request) : world :=
  {| server := fst (serve (server w) req); sent := sent w ++ [req];
     stdout := stdout w; files := files w |}.

Definition is_string (j : json) : bool :=
  match j with
  | JStr _ => true
  | _ => false
  end.

(** [requests.request]: a header value that is no string is refused before
    anything is sent. *)
Definition send (req : request) : M response := fun w =>
  if forallb (fun h => is_string (snd h)) (headers req)
  then (Ok (answer w req), deliver w req)
  else (Raise InvalidHeader, w).

Definition requests_post (url : string) (headers : list (string * json))
    (json : option json) : M response :=
  send {| meth := POST; url := url; headers := headers; payload := json |}.

Definition requests_get (url : string) (headers : list (string * json))
    : M response :=
  send {| meth := GET; url := url; headers := headers; payload := None |}.

Definition requests_put (url : string) (headers : list (string * json))
    (json : json) : M response :=
  send {| meth := PUT; url := url; headers := headers; payload := Some json |}.

(** [open(path, 'r')] and what [csv.reader] yields from it. *)
Definition read_csv (path : string) : M csv_file := fun w =>
  match files w !! path with
  | Some f => (Ok f, w)
  | None => (Raise FileNotFoundError, w)
  end.

(** [open(path, 'w')] and what [csv.writer] was given. *)
Definition write_csv (path : string) (f : csv_file) : M unit := fun w =>
  (Ok tt, {| server := server w; sent := sent w; stdout := stdout w;
             files := <[path := f]> (files w) |}).

Definition api : string := TABLEAU_SERVER_URL +:+ "/api/" +:+ API_VERSION.

Definition logout (token : json) : M unit :=
  let url := api +:+ "/auth/signout" in
  r ← requests_post url (get_request_headers token) None;
  mret tt.

Definition signin_payload (username password : string) (contentUrl : json)
    : json :=
  JObj [("credentials",
    JObj [ ("name", JStr username);
           ("password", JStr password);
           ("site", JObj [("contentUrl",
              match contentUrl with
              | JNull => JStr ""
              | _ => contentUrl
              end)]) ])].

(** [r.json()['credentials']['token']] *)
Definition token_of (r : response) : result json :=
  j ← resp_json r;
  credentials ← py_getitem j "credentials";
  py_getitem credentials "token".

Definition get_api_token (username password : string) (contentUrl : json)
    : M json :=
  let payload := signin_payload username password contentUrl in
  let url := api +:+ "/auth/signin" in
  r ← requests_post url (get_request_headers JNull) (Some payload);
  lift (token_of r).

(** One item of the dict comprehension of [get_sites]. *)
Definition add_site (sites : list (json * site_info)) (site : json)
    : result (list (json * site_info)) :=
  id ← py_getitem site "id";
  name ← py_getitem site "name";
  contentUrl ← py_getitem site "contentUrl";
  if hashable id
  then Ok (od_set key_eqb id {| name := name; contentUrl := contentUrl |} sites)
  else Raise TypeError.

Definition get_sites (token : json) : M (list (json * site_info)) :=
  let sites_url := api +:+ "/sites" in
  r ← requests_get sites_url (get_request_headers token);
  lift (j ← resp_json r;
        sites ← py_getitem j "sites";
        site ← py_getitem sites "site";
        items ← py_iter site;
        foldR add_site items []).

(** *** [build_datasources_csv] *)

(** [datasources.append({...})] for one connection of a data source. *)
Definition add_connection (site_id : json) (site_data : site_info)
    (source : json) (datasources : list ConnectionRecord.t)
    (connection : json) : result (list ConnectionRecord.t) :=
  source_id ← py_getitem source "id";
  source_name ← py_getitem source "name";
  source_url ← py_getitem source "contentUrl";
  c_id ← py_getitem connection "id";
  c_type ← py_getitem connection "type";
  c_address ← py_getitem connection "serverAddress";
  c_port ← py_getitem connection "serverPort";
  c_user ← py_getitem connection "userName";
  Ok (datasources ++
      [ {| ConnectionRecord.site_id := site_id;
           ConnectionRecord.site_name := name site_data;
           ConnectionRecord.site_content_url := contentUrl site_data;
           ConnectionRecord.datasource_id := source_id;
           ConnectionRecord.datasource_name := source_name;
           ConnectionRecord.datasource_content_url := source_url;
           ConnectionRecord.connection_id := c_id;
           ConnectionRecord.connection_type := c_type;
           ConnectionRecord.connection_server_address := c_address;
           ConnectionRecord.connection_server_port := c_port;
           ConnectionRecord.connection_username := c_user;
           ConnectionRecord.updated_username := JNull;
           ConnectionRecord.updated_password := JNull |} ]).

(** One turn of [for source in sources]. *)
Definition walk_source (site_id : json) (site_data : site_info)
    (site_token : json) (datasources : list ConnectionRecord.t)
    (source : json) : M (list ConnectionRecord.t) :=
  source_id ← lift (py_getitem source "id");
  let connections_url :=
    api +:+ "/sites/" +:+ py_str site_id +:+ "/datasources/"
        +:+ py_str source_id +:+ "/connections" in
  r ← requests_get connections_url (get_request_headers site_token);
  j ← lift (resp_json r);
  listing ← lift (py_getitem j "connections");
  present ← lift (py_contains "connection" listing);
  if (present : bool) then
    connections ← lift (py_getitem listing "connection");
    items ← lift (py_iter connections);
    lift (foldR (add_connection site_id site_data source) items datasources)
  else mret datasources.

(** One turn of [for site_id, site_data in sites.items()]. *)
Definition walk_site (datasources : list ConnectionRecord.t)
    (site : json * site_info) : M (list ConnectionRecord.t) :=
  let (site_id, site_data) := site in
  _ ← print ("Getting datasources for " +:+ py_str (name site_data)
             +:+ " site...");
  site_token ← get_api_token USERNAME PASSWORD (contentUrl site_data);
  let datasources_url :=
    api +:+ "/sites/" +:+ py_str site_id +:+ "/datasources" in
  r ← requests_get datasources_url (get_request_headers site_token);
  j ← lift (resp_json r);
  listing ← lift (py_getitem j "datasources");
  present ← lift (py_contains "datasource" listing);
  datasources ←
    (if (present : bool) then
       sources ← lift (py_getitem listing "datasource");
       items ← lift (py_iter sources);
       foldM (walk_source site_id site_data site_token) items datasources
     else mret datasources);
  _ ← logout site_token;
  mret datasources.

(** A record as [DictWriter.writerows] lays it out. *)
Definition write_row (r : ConnectionRecord.t) : list string :=
  map csv_field (ConnectionRecord.values r).

(** The file that [writeheader] and [writerows] produce. *)
Definition export_csv (datasources : list ConnectionRecord.t) : csv_file :=
  header :: map write_row datasources.

Definition build_datasources_csv (save_as : string) : M unit :=
  token ← get_api_token USERNAME PASSWORD JNull;
  _ ← print ("Getting all sites on Tableau Server ["
             +:+ TABLEAU_SERVER_URL +:+ "]...");
  sites ← get_sites token;
  _ ← logout token;
  datasources ← foldM walk_site sites [];
  _ ← print "Writing CSV...";
  _ ← write_csv save_as (export_csv datasources);
  print ("Wrote " +:+ decimal (Z.of_nat (length datasources))
         +:+ " datasources to " +:+ save_as).

(** *** [update_datasources_from_csv] *)

Definition success_message (datasource_data : datasource_entry)
    (connection : connection_update) (redacted : string) : string :=
  "Updated data source " +:+ cell_str (datasource_name datasource_data)
    +:+ "." +:+ nl +:+ "Username: " +:+ cell_str (username connection)
    +:+ " | Password: " +:+ redacted.

Definition error_message (site_data : site_entry)
    (datasource_data : datasource_entry) (answer : json) : string :=
  "ERROR: Error while updating "
    +:+ cell_str (datasource_name datasource_data) +:+ " on site "
    +:+ cell_str (site_name site_data) +:+ ":" +:+ nl +:+ py_str answer.

Definition update_url (site_data : site_entry) (datasource_id : cell)
    (connection : connection_update) : string :=
  api +:+ "/sites/" +:+ cell_str (site_id site_data)
      +:+ "/datasources/" +:+ cell_str datasource_id
      +:+ "/connections/" +:+ cell_str (connection_id connection).

Definition update_payload (connection : connection_update) : json :=
  JObj [("connection",
    JObj [ ("userName", json_of_cell (username connection));
           ("password", json_of_cell (password connection));
           ("embedPassword", JBool true) ])].

(** One turn of [for connection in datasource_data['connections']]. *)
Definition update_connection (site_data : site_entry) (update_token : json)
    (datasource_id : cell) (datasource_data : datasource_entry)
    (connection : connection_update) : M unit :=
  r ← requests_put (update_url site_data datasource_id connection)
                   (get_request_headers update_token)
                   (update_payload connection);
  redacted ← lift (redact (password connection));
  let message := success_message datasource_data connection redacted in
  j ← lift (resp_json r);
  updated ← lift (py_contains "connection" j);
  let message :=
    if negb updated then error_message site_data datasource_data j
    else message in
  print message.

(** One turn of [for site_content_url, site_data in updates.items()]. *)
Definition update_site (site : cell * site_entry) : M unit :=
  let (site_content_url, site_data) := site in
  _ ← print (nl +:+ "Updating connections for site "
             +:+ cell_str (site_name site_data) +:+ nl
             +:+ "-------------------------------------------------");
  update_token ←
    get_api_token USERNAME PASSWORD (json_of_cell site_content_url);
  for_each (datasources site_data) (fun datasource =>
    let (datasource_id, datasource_data) := datasource in
    for_each (connections datasource_data)
      (update_connection site_data update_token datasource_id
                         datasource_data)).

(** Lines 256-284: the loop over [updates]. *)
Definition push_updates (updates : update_plan) : M unit :=
  for_each updates update_site.

Definition update_datasources_from_csv (path_to_csv : string) : M unit :=
  input_csv ← read_csv path_to_csv;
  _ ← print ("Collecting data from CSV [" +:+ path_to_csv +:+ "]...");
  updates ← lift (collect_updates (DictReader input_csv));
  push_updates updates.

End Program.

Arguments world : clear implicits.
Arguments M : clear implicits.
Arguments server {S} w.
Arguments sent {S} w.
Arguments stdout {S} w.
Arguments files {S} w.
Arguments print {S} line w.
Arguments printed {S} w line : simpl never.
Arguments answer {S} serve w req : simpl never.
Arguments deliver {S} serve w req : simpl never.
Arguments lift {S A} r w.
Arguments read_csv {S} path w.
Arguments write_csv {S} path f w.
Arguments send {S} serve req w.

(** ** Notions used in the statements *)

(** [row[k]] of a row that has the column. *)
Definition col (row : gmap string cell) (k : string) : cell :=
  default None (row !! k).

Definition nonempty (c : cell) : bool :=
  match c with
  | Some (String _ _) => true
  | _ => false
  end.

(** A row that carries every column the reader subscripts, with both new
    credentials filled in. *)
Definition valid_row (row : gmap string cell) : bool :=
  nonempty (col row "updated_username") &&
  nonempty (col row "updated_password") &&
  forallb (fun k => bool_decide (is_Some (row !! k)))
    [ "site_content_url"; "site_id"; "site_name";
      "datasource_id"; "datasource_name"; "connection_id" ].

(** The connection update that a row contributes. *)
Definition conn_of_row (row : gmap string cell) : connection_update :=
  {| connection_id := col row "connection_id";
     username := col row "updated_username";
     password := col row "updated_password" |}.

(** What [add_row] does to [updates] on a valid row, in one step. *)
Definition merge_row (updates : update_plan) (row : gmap string cell)
    : update_plan :=
  let site := col row "site_content_url" in
  let ds := col row "datasource_id" in
  let site_data :=
    default {| site_id := col row "site_id"; site_name := col row "site_name";
               datasources := [] |}
            (od_get cell_eqb site updates) in
  let datasource_data :=
    default {| datasource_name := col row "datasource_name";
               connections := [] |}
            (od_get cell_eqb ds (datasources site_data)) in
  od_set cell_eqb site
    {| site_id := site_id site_data;
       site_name := site_name site_data;
       datasources :=
         od_set cell_eqb ds
           {| datasource_name := datasource_name datasource_data;
              connections := connections datasource_data ++ [conn_of_row row] |}
           (datasources site_data) |}
    updates.

(** How many entries of a dict have the key [k]. *)
Fixpoint count_entries {V} (k : cell) (d : list (cell * V)) : nat :=
  match d with
  | [] => 0
  | (k', _) :: rest => (if cell_eqb k k' then 1 else 0) + count_entries k rest
  end.

(** The data source entries of site [k] in a plan. *)
Definition datasources_of (updates : update_plan) (k : cell)
    : list (cell * datasource_entry) :=
  match od_get cell_eqb k updates with
  | Some site_data => datasources site_data
  | None => []
  end.

(** The connection list of data source [d] of site [k] in a plan. *)
Definition connections_of (updates : update_plan) (k d : cell)
    : list connection_update :=
  match od_get cell_eqb d (datasources_of updates k) with
  | Some datasource_data => connections datasource_data
  | None => []
  end.

Definition site_meta (updates : update_plan) (k : cell) : option (cell * cell) :=
  match od_get cell_eqb k updates with
  | Some site_data => Some (site_id site_data, site_name site_data)
  | None => None
  end.

Definition name_of (updates : update_plan) (k d : cell) : option cell :=
  match od_get cell_eqb d (datasources_of updates k) with
  | Some datasource_data => Some (datasource_name datasource_data)
  | None => None
  end.

(** Row [q] names the site [k]. *)
Definition of_site (k : cell) (q : gmap string cell) : bool :=
  cell_eqb (col q "site_content_url") k.

(** Row [q] names the data source [d] of the site [k]. *)
Definition of_datasource (k d : cell) (q : gmap string cell) : bool :=
  cell_eqb (col q "site_content_url") k && cell_eqb (col q "datasource_id") d.




(** The edit of an exported file: new credentials in the last two columns
    of each line. *)
Definition fill_line (cred : string * string) (line : list string)
    : list string :=
  take 11 line ++ [fst cred; snd cred].

Definition fill (creds : list (string * string)) (f : csv_file) : csv_file :=
  match f with
  | [] => []
  | fieldnames :: lines => fieldnames :: zip_with fill_line creds lines
  end.

(** The method and URL of each request. *)
Definition calls (l : list request) : list (method * string) :=
  map (fun r => (meth r, url r)) l.


(** ** Requests named in the statements *)

Definition signin_request (TABLEAU_SERVER_URL API_VERSION : string)
    (username password : string) (contentUrl : json) : request :=
  {| meth := POST;
     url := api TABLEAU_SERVER_URL API_VERSION +:+ "/auth/signin";
     headers := get_request_headers JNull;
     payload := Some (signin_payload username password contentUrl) |}.

Definition signout_request (TABLEAU_SERVER_URL API_VERSION : string)
    (token : json) : request :=
  {| meth := POST;
     url := api TABLEAU_SERVER_URL API_VERSION +:+ "/auth/signout";
     headers := get_request_headers token;
     payload := None |}.

Definition put_request (TABLEAU_SERVER_URL API_VERSION : string)
    (site_data : site_entry) (update_token : json) (datasource_id : cell)
    (connection : connection_update) : request :=
  {| meth := PUT;
     url := update_url TABLEAU_SERVER_URL API_VERSION site_data
                       datasource_id connection;
     headers := get_request_headers update_token;
     payload := Some (update_payload connection) |}.

Definition datasources_request (py_repr : json -> string)
    (TABLEAU_SERVER_URL API_VERSION : string) (site_id token : json)
    : request :=
  {| meth := GET;
     url := api TABLEAU_SERVER_URL API_VERSION +:+ "/sites/"
            +:+ py_str py_repr site_id +:+ "/datasources";
     headers := get_request_headers token;
     payload := None |}.

Definition connections_request (py_repr : json -> string)
    (TABLEAU_SERVER_URL API_VERSION : string) (site_id source_id token : json)
    : request :=
  {| meth := GET;
     url := api TABLEAU_SERVER_URL API_VERSION +:+ "/sites/"
            +:+ py_str py_repr site_id +:+ "/datasources/"
            +:+ py_str py_repr source_id +:+ "/connections";
     headers := get_request_headers token;
     payload := None |}.




(** Every request that [m] sends satisfies [P], however [m] ends. *)
Definition emits {S A} (P : request -> Prop) (m : M S A) : Prop :=
  forall w, exists new, sent (snd (m w)) = sent w ++ new /\ Forall P new.

Definition has_payload (req : request) : Prop := payload req <> None.



(** ** A sample server and sample files *)

Definition token_body (t : string) : json :=
  JObj [("credentials", JObj [("token", JStr t)])].

(** Signs every caller in, knows no data source, and refuses the update
    of connection [c2]. Its state counts the requests served. *)
Definition sample_serve (s : nat) (req : request) : nat * response :=
  (S s,
   match meth req with
   | POST =>
       match payload req with
       | Some _ => {| status_code := 200; body := Some (token_body "t0k3n") |}
       | None => {| status_code := 204; body := None |}
       end
   | GET =>
       if is_substring "/connections" (url req) then
         {| status_code := 200; body := Some (JObj [("connections", JObj [])]) |}
       else if is_substring "/datasources" (url req) then
         {| status_code := 200; body := Some (JObj [("datasources", JObj [])]) |}
       else
         {| status_code := 200;
            body := Some (JObj [("sites", JObj [("site", JArr [])])]) |}
   | PUT =>
       if is_substring "/connections/c2" (url req) then
         {| status_code := 404;
            body := Some (JObj [("error", JObj [("code", JStr "404007")])]) |}
       else
         {| status_code := 200;
            body := Some (JObj [("connection", JObj [("id", JStr "c")])]) |}
   end).

(** Answers 401 to everything, with a token in the body all the same. *)
Definition rejecting_serve (s : unit) (req : request) : unit * response :=
  (tt, {| status_code := 401; body := Some (token_body "stale") |}).

Definition sample_repr (j : json) : string := "{...}".

Definition sample_lines : list (list string) :=
  [ ["1"; "Sales"; "sales"; "d1"; "Orders"; "orders"; "c1"; "postgres";
     "db.local"; "5432"; "alice"; "alice2"; "secret"];
    ["1x"; "Sales (old)"; "sales"; "d1"; "Orders (old)"; "orders"; "c2";
     "postgres"; "db.local"; "5432"; "bob"; "bob2"; "x"];
    ["2"; "Ops"; "ops"; "d7"; "Hosts"; "hosts"; "c3"; "mysql";
     "db.local"; "3306"; "carol"; "carol2"; "pw"] ].

Definition sample_file : csv_file := header :: sample_lines.

Definition sample_rows : list (gmap string cell) := DictReader sample_file.

Definition sample_row (i : nat) : gmap string cell :=
  mk_row header (nth i sample_lines []).

Definition sample_records : list ConnectionRecord.t :=
  [ {| ConnectionRecord.site_id := JStr "1";
       ConnectionRecord.site_name := JStr "Sales";
       ConnectionRecord.site_content_url := JStr "sales";
       ConnectionRecord.datasource_id := JStr "d1";
       ConnectionRecord.datasource_name := JStr "Orders";
       ConnectionRecord.datasource_content_url := JStr "orders";
       ConnectionRecord.connection_id := JStr "c1";
       ConnectionRecord.connection_type := JStr "postgres";
       ConnectionRecord.connection_server_address := JStr "db.local";
       ConnectionRecord.connection_server_port := JStr "5432";
       ConnectionRecord.connection_username := JStr "alice";
       ConnectionRecord.updated_username := JNull;
       ConnectionRecord.updated_password := JNull |};
    {| ConnectionRecord.site_id := JStr "1";
       ConnectionRecord.site_name := JStr "Sales";
       ConnectionRecord.site_content_url := JStr "sales";
       ConnectionRecord.datasource_id := JStr "d1";
       ConnectionRecord.datasource_name := JStr "Orders";
       ConnectionRecord.datasource_content_url := JStr "orders";
       ConnectionRecord.connection_id := JStr "c2";
       ConnectionRecord.connection_type := JStr "postgres";
       ConnectionRecord.connection_server_address := JNull;
       ConnectionRecord.connection_server_port := JNum 5432;
       ConnectionRecord.connection_username := JStr "bob";
       ConnectionRecord.updated_username := JNull;
       ConnectionRecord.updated_password := JNull |} ].

Definition sample_credentials : list (string * string) :=
  [ ("alice2", "secret"); ("bob2", "x") ].

Definition sample_url : string := "https://tableau.example.com".
Definition sample_version : string := "3.4".

Definition sample_world (f : csv_file) : world nat :=
  {| server := 0; sent := []; stdout := [];
     files := {["datasources.csv" := f]} |}.

Definition sample_update (f : csv_file) : result unit * world nat :=
  update_datasources_from_csv sample_repr sample_url sample_version
    "admin" "hunter2" nat sample_serve "datasources.csv" (sample_world f).

Definition sales_site : site_entry :=
  {| site_id := Some "1"; site_name := Some "Sales"; datasources := [] |}.

Definition orders_datasource : datasource_entry :=
  {| datasource_name := Some "Orders"; connections := [] |}.

Definition alice_update : connection_update :=
  {| connection_id := Some "c1"; username := Some "alice2";
     password := Some "secret" |}.

(** A file whose header lost the [updated_username] column. *)
Definition file_without_username_column : csv_file :=
  [ ["site_id"; "site_name"; "site_content_url"; "datasource_id";
     "datasource_name"; "datasource_content_url"; "connection_id";
     "connection_type"; "connection_server_address";
     "connection_server_port"; "connection_username"; "updated_password"];
    ["1"; "Sales"; "sales"; "d1"; "Orders"; "orders"; "c1"; "postgres";
     "db.local"; "5432"; "alice"; ""] ].

(** A file whose second line stops before the credential columns. *)
Definition file_with_short_line : csv_file :=
  [ header;
    ["1"; "Sales"; "sales"; "d1"; "Orders"; "orders"; "c1"; "postgres";
     "db.local"; "5432"; "alice"; "alice2"; "secret"];
    ["1"; "Sales"; "sales"; "d1"; "Orders"; "orders"; "c2"; "postgres";
     "db.local"; "5432"; "bob"] ].


(** ** Notions used in the statements about whole runs *)

Definition sites_request (TABLEAU_SERVER_URL API_VERSION : string)
    (token : json) : request :=
  {| meth := GET;
     url := api TABLEAU_SERVER_URL API_VERSION +:+ "/sites";
     headers := get_request_headers token;
     payload := None |}.

(** The requests that [build_datasources_csv] is written to send. *)
Inductive export_request (py_repr : json -> string)
    (TABLEAU_SERVER_URL API_VERSION USERNAME PASSWORD : string)
    : request -> Prop :=
| export_signin contentUrl :
    export_request py_repr TABLEAU_SERVER_URL API_VERSION USERNAME PASSWORD
      (signin_request TABLEAU_SERVER_URL API_VERSION USERNAME PASSWORD
                      contentUrl)
| export_signout token :
    export_request py_repr TABLEAU_SERVER_URL API_VERSION USERNAME PASSWORD
      (signout_request TABLEAU_SERVER_URL API_VERSION token)
| export_sites token :
    export_request py_repr TABLEAU_SERVER_URL API_VERSION USERNAME PASSWORD
      (sites_request TABLEAU_SERVER_URL API_VERSION token)
| export_datasources site_id token :
    export_request py_repr TABLEAU_SERVER_URL API_VERSION USERNAME PASSWORD
      (datasources_request py_repr TABLEAU_SERVER_URL API_VERSION site_id token)
| export_connections site_id source_id token :
    export_request py_repr TABLEAU_SERVER_URL API_VERSION USERNAME PASSWORD
      (connections_request py_repr TABLEAU_SERVER_URL API_VERSION
                           site_id source_id token).

(** The requests that [update_datasources_from_csv] is written to send. *)
Inductive update_request
    (TABLEAU_SERVER_URL API_VERSION USERNAME PASSWORD : string)
    : request -> Prop :=
| update_signin contentUrl :
    update_request TABLEAU_SERVER_URL API_VERSION USERNAME PASSWORD
      (signin_request TABLEAU_SERVER_URL API_VERSION USERNAME PASSWORD
                      contentUrl)
| update_put site_data token datasource_id connection :
    update_request TABLEAU_SERVER_URL API_VERSION USERNAME PASSWORD
      (put_request TABLEAU_SERVER_URL API_VERSION site_data token
                   datasource_id connection).

(** [m] takes every world to one that [R] relates to it, however it ends. *)
Definition kept {S A} (R : world S -> world S -> Prop) (m : M S A) : Prop :=
  forall w, R w (snd (m w)).

(** [w'] is [w] after more requests, all of them satisfying [P]. *)
Definition sent_more {S} (P : request -> Prop) (w w' : world S) : Prop :=
  exists new, sent w' = sent w ++ new /\ Forall P new.

Definition json_headers (req : request) : Prop :=
  assoc "Content-Type" (headers req) = Some (JStr "application/json") /\
  assoc "Accept" (headers req) = Some (JStr "application/json").

Definition is_signin (req : request) : bool :=
  match meth req, payload req with
  | POST, Some _ => true
  | _, _ => false
  end.

Definition is_signout (req : request) : bool :=
  match meth req, payload req with
  | POST, None => true
  | _, _ => false
  end.

Definition is_get (req : request) : bool :=
  match meth req with
  | GET => true
  | _ => false
  end.

(** The keys of a list in the order of their first appearance. *)
Definition first_seen (keys : list cell) : list cell :=
  fold_left (fun seen k => if existsb (cell_eqb k) seen then seen
                           else seen ++ [k]) keys [].

(** Both credentials of a connection update are non-empty strings. *)
Definition connection_filled (c : connection_update) : bool :=
  nonempty (username c) && nonempty (password c).

Definition plan_filled (updates : update_plan) : bool :=
  forallb (fun site =>
    forallb (fun datasource =>
      forallb connection_filled (connections (snd datasource)))
      (datasources (snd site)))
    updates.

(** A record as the walker makes it for a site: the site's three fields,
    and no new credentials. *)
Definition record_of_site (site_id : json) (site_data : site_info)
    (r : ConnectionRecord.t) : Prop :=
  ConnectionRecord.site_id r = site_id /\
  ConnectionRecord.site_name r = name site_data /\
  ConnectionRecord.site_content_url r = contentUrl site_data /\
  ConnectionRecord.updated_username r = JNull /\
  ConnectionRecord.updated_password r = JNull.

(** A line of an export that nobody edited: thirteen fields, the last two
    empty. *)
Definition blank_credentials (line : list string) : Prop :=
  length line = 13 /\ line !! 11 = Some "" /\ line !! 12 = Some "".

(** The columns that the reader subscripts. *)
Definition read_columns : list string :=
  [ "updated_username"; "updated_password"; "site_content_url"; "site_id";
    "site_name"; "datasource_id"; "datasource_name"; "connection_id" ].

(** A server for the export: two sites, the first with one data source of
    two connections, the second with no data source. *)
Definition listing_serve (s : nat) (req : request) : nat * response :=
  (S s,
   match meth req with
   | POST =>
       match payload req with
       | Some _ => {| status_code := 200; body := Some (token_body "t0k3n") |}
       | None => {| status_code := 204; body := None |}
       end
   | PUT => {| status_code := 405; body := None |}
   | GET =>
       if is_substring "/connections" (url req) then
         {| status_code := 200;
            body := Some (JObj [("connections", JObj [("connection", JArr
              [ JObj [("id", JStr "c1"); ("type", JStr "postgres");
                      ("serverAddress", JStr "db.local");
                      ("serverPort", JStr "5432"); ("userName", JStr "alice")];
                JObj [("id", JStr "c2"); ("type", JStr "postgres");
                      ("serverAddress", JStr "db.local");
                      ("serverPort", JStr "5432"); ("userName", JStr "bob")]
              ])])]) |}
       else if is_substring "/sites/1/datasources" (url req) then
         {| status_code := 200;
            body := Some (JObj [("datasources", JObj [("datasource", JArr
              [ JObj [("id", JStr "d1"); ("name", JStr "Orders");
                      ("contentUrl", JStr "orders")] ])])]) |}
       else if is_substring "/datasources" (url req) then
         {| status_code := 200; body := Some (JObj [("datasources", JObj [])]) |}
       else
         {| status_code := 200;
            body := Some (JObj [("sites", JObj [("site", JArr
              [ JObj [("id", JStr "1"); ("name", JStr "Sales");
                      ("contentUrl", JStr "sales")];
                JObj [("id", JStr "2"); ("name", JStr "Ops");
                      ("contentUrl", JStr "ops")] ])])]) |}
   end).

Definition sample_export (w : world nat) : result unit * world nat :=
  build_datasources_csv sample_repr sample_url sample_version
    "admin" "hunter2" nat listing_serve "datasources.csv" w.

(** A server that knows no session: it answers every request with an error
    document. *)
Definition failing_serve (s : nat) (req : request) : nat * response :=
  (S s, {| status_code := 401;
           body := Some (JObj [("error", JObj [("code", JStr "401001")])]) |}).

(** A server that signs in and answers every other request with a page
    that is no JSON document. *)
Definition gateway_serve (s : nat) (req : request) : nat * response :=
  (S s,
   match meth req with
   | POST => {| status_code := 200; body := Some (token_body "t0k3n") |}
   | _ => {| status_code := 502; body := None |}
   end).

(** A server that signs in and denies everything else with an error
    document. *)
Definition denying_serve (s : nat) (req : request) : nat * response :=
  (S s,
   match meth req with
   | POST => {| status_code := 200; body := Some (token_body "t0k3n") |}
   | _ => {| status_code := 403;
             body := Some (JObj [("error", JObj [("code", JStr "403004")])]) |}
   end).

Definition exported_world : world nat := snd (sample_export (sample_world [])).

Definition sample_sites : list (json * site_info) :=
  [ (JStr "1", {| name := JStr "Sales"; contentUrl := JStr "sales" |});
    (JStr "2", {| name := JStr "Ops"; contentUrl := JStr "ops" |}) ].

Definition sample_walk : result (list ConnectionRecord.t) * world nat :=
  foldM nat
    (walk_site sample_repr sample_url sample_version "admin" "hunter2"
               nat listing_serve)
    sample_sites [] (sample_world []).

(** * Properties *)

(** ** Dicts in insertion order *)

Ltac unfold_result :=
  unfold mbind, result_bind, rbind, mret, result_ret in *.

Lemma cell_eqb_refl (k : cell) : cell_eqb k k = true.
Proof. unfold cell_eqb. by apply bool_decide_eq_true. Qed.

Lemma cell_eqb_eq (a b : cell) : cell_eqb a b = true <-> a = b.
Proof. unfold cell_eqb. apply bool_decide_eq_true. Qed.

Lemma cell_eqb_ne (a b : cell) : a <> b -> cell_eqb a b = false.
Proof. unfold cell_eqb. apply bool_decide_eq_false. Qed.

Section odict_facts.
Context {V : Type}.
Implicit Types (k : cell) (d : list (cell * V)).

Lemma od_get_set_eq k (v : V) d :
  od_get cell_eqb k (od_set cell_eqb k v d) = Some v.
Proof.
  induction d as [|[k' v'] d IH]; simpl.
  - by rewrite cell_eqb_refl.
  - destruct (cell_eqb k k') eqn:E; simpl; rewrite E; auto.
Qed.

Lemma od_get_set_ne k k' (v : V) d :
  k <> k' -> od_get cell_eqb k' (od_set cell_eqb k v d) = od_get cell_eqb k' d.
Proof.
  intros Hne. induction d as [|[k0 v0] d IH]; simpl.
  - rewrite cell_eqb_ne; auto.
  - destruct (cell_eqb k k0) eqn:E; simpl.
    + apply cell_eqb_eq in E. subst k0. rewrite cell_eqb_ne; auto.
    + by rewrite IH.
Qed.

Lemma od_get_set k k' (v : V) d :
  od_get cell_eqb k' (od_set cell_eqb k v d) =
  if cell_eqb k k' then Some v else od_get cell_eqb k' d.
Proof.
  destruct (cell_eqb k k') eqn:E.
  - apply cell_eqb_eq in E. subst. apply od_get_set_eq.
  - apply od_get_set_ne. intros ->. by rewrite cell_eqb_refl in E.
Qed.

Lemma od_set_set k (v0 v : V) d :
  od_set cell_eqb k v (od_set cell_eqb k v0 d) = od_set cell_eqb k v d.
Proof.
  induction d as [|[k' v'] d IH]; simpl.
  - by rewrite cell_eqb_refl.
  - destruct (cell_eqb k k') eqn:E; simpl; rewrite E; congruence.
Qed.

Lemma count_entries_set k k' (v : V) d :
  count_entries k' (od_set cell_eqb k v d) =
  count_entries k' d +
  (if od_mem cell_eqb k d then 0 else if cell_eqb k' k then 1 else 0).
Proof.
  unfold od_mem. induction d as [|[k0 v0] d IH]; simpl.
  - destruct (cell_eqb k' k); lia.
  - destruct (cell_eqb k k0) eqn:E; simpl; [lia | rewrite IH; lia].
Qed.

Lemma count_entries_get k d :
  od_get cell_eqb k d = None -> count_entries k d = 0.
Proof.
  induction d as [|[k0 v0] d IH]; simpl; auto.
  destruct (cell_eqb k k0); [discriminate | auto].
Qed.

Lemma count_entries_pos k (v : V) d :
  od_get cell_eqb k d = Some v -> 1 <= count_entries k d.
Proof.
  induction d as [|[k0 v0] d IH]; simpl; [discriminate |].
  destruct (cell_eqb k k0); [lia | intros H; apply IH in H; lia].
Qed.

(** A sum over the values of a dict, when one value is set. *)
Lemma list_sum_set (f : V -> nat) k (v : V) d :
  list_sum (map (fun e => f (snd e)) (od_set cell_eqb k v d))
  + match od_get cell_eqb k d with Some v0 => f v0 | None => 0 end
  = list_sum (map (fun e => f (snd e)) d) + f v.
Proof.
  induction d as [|[k0 v0] d IH]; simpl; [lia |].
  destruct (cell_eqb k k0); simpl; lia.
Qed.

End odict_facts.

(** ** The import reader on valid rows *)

Lemma row_get_col row k :
  is_Some (row !! k) -> row_get row k = Ok (col row k).
Proof. intros [c Hc]. unfold row_get, col. by rewrite Hc. Qed.

Lemma not_provided_nonempty row k :
  nonempty (col row k) = true -> is_Some (row !! k) /\ not_provided row k = Ok false.
Proof.
  unfold nonempty, col, not_provided, row_get.
  destruct (row !! k) as [[[|a s]|]|]; simpl; try discriminate.
  intros _. split; [eauto | reflexivity].
Qed.

Lemma valid_row_columns row :
  valid_row row = true ->
  nonempty (col row "updated_username") = true /\
  nonempty (col row "updated_password") = true /\
  is_Some (row !! "site_content_url") /\ is_Some (row !! "site_id") /\
  is_Some (row !! "site_name") /\ is_Some (row !! "datasource_id") /\
  is_Some (row !! "datasource_name") /\ is_Some (row !! "connection_id").
Proof.
  unfold valid_row. rewrite !andb_true_iff. simpl.
  rewrite !andb_true_iff, !bool_decide_eq_true. tauto.
Qed.

Lemma add_row_valid updates row :
  valid_row row = true -> add_row updates row = Ok (merge_row updates row).
Proof.
  intros Hv. apply valid_row_columns in Hv.
  destruct Hv as (Hu & Hp & Hs & Hsi & Hsn & Hd & Hdn & Hc).
  apply not_provided_nonempty in Hu as [Hu1 Hu2].
  apply not_provided_nonempty in Hp as [Hp1 Hp2].
  unfold add_row, merge_row, od_lookup, od_mem. unfold_result.
  rewrite Hu2, Hp2. rewrite !row_get_col by assumption.
  destruct (od_get cell_eqb (col row "site_content_url") updates)
    as [sd|] eqn:Es; simpl.
  - rewrite Es.
    destruct (od_get cell_eqb (col row "datasource_id") (datasources sd))
      as [dd|] eqn:Ed; simpl.
    + rewrite Ed. reflexivity.
    + rewrite od_get_set_eq, od_set_set. reflexivity.
  - rewrite od_get_set_eq. simpl. rewrite cell_eqb_refl, od_set_set.
    reflexivity.
Qed.

Lemma collect_from_valid rows : forall updates,
  forallb valid_row rows = true ->
  foldR add_row rows updates = Ok (fold_left merge_row rows updates).
Proof.
  induction rows as [|r rows IH]; intros updates Hv; simpl in *; auto.
  apply andb_true_iff in Hv as [Hr Hrows].
  unfold_result. rewrite add_row_valid by assumption. by apply IH.
Qed.

(** ** What one merged row changes *)

Lemma datasources_of_merge updates row k :
  datasources_of (merge_row updates row) k =
  if cell_eqb (col row "site_content_url") k then
    od_set cell_eqb (col row "datasource_id")
      {| datasource_name :=
           default (col row "datasource_name")
             (name_of updates (col row "site_content_url")
                      (col row "datasource_id"));
         connections :=
           connections_of updates (col row "site_content_url")
                          (col row "datasource_id") ++ [conn_of_row row] |}
      (datasources_of updates (col row "site_content_url"))
  else datasources_of updates k.
Proof.
  unfold datasources_of at 1. unfold merge_row. rewrite od_get_set.
  destruct (cell_eqb (col row "site_content_url") k); [|reflexivity].
  unfold name_of, connections_of, datasources_of.
  destruct (od_get cell_eqb (col row "site_content_url") updates) as [sd|];
    simpl; [|reflexivity].
  destruct (od_get cell_eqb (col row "datasource_id") (datasources sd));
    reflexivity.
Qed.

Lemma connections_of_merge updates row k d :
  connections_of (merge_row updates row) k d =
  connections_of updates k d ++
  (if cell_eqb (col row "site_content_url") k
      && cell_eqb (col row "datasource_id") d
   then [conn_of_row row] else []).
Proof.
  unfold connections_of at 1. rewrite datasources_of_merge.
  destruct (cell_eqb (col row "site_content_url") k) eqn:Ek; simpl.
  - apply cell_eqb_eq in Ek. subst k. rewrite od_get_set.
    destruct (cell_eqb (col row "datasource_id") d) eqn:Ed.
    + apply cell_eqb_eq in Ed. by subst d.
    + by rewrite app_nil_r.
  - by rewrite app_nil_r.
Qed.

Lemma name_of_merge updates row k d :
  name_of (merge_row updates row) k d =
  match name_of updates k d with
  | Some n => Some n
  | None =>
      if cell_eqb (col row "site_content_url") k
         && cell_eqb (col row "datasource_id") d
      then Some (col row "datasource_name") else None
  end.
Proof.
  unfold name_of at 1. rewrite datasources_of_merge.
  destruct (cell_eqb (col row "site_content_url") k) eqn:Ek; simpl.
  - apply cell_eqb_eq in Ek. subst k. rewrite od_get_set.
    destruct (cell_eqb (col row "datasource_id") d) eqn:Ed.
    + apply cell_eqb_eq in Ed. subst d. simpl.
      by destruct (name_of updates _ _).
    + unfold name_of. by destruct (od_get cell_eqb d _).
  - unfold name_of. by destruct (od_get cell_eqb d _).
Qed.

Lemma site_meta_merge updates row k :
  site_meta (merge_row updates row) k =
  match site_meta updates k with
  | Some m => Some m
  | None =>
      if cell_eqb (col row "site_content_url") k
      then Some (col row "site_id", col row "site_name") else None
  end.
Proof.
  unfold site_meta, merge_row. rewrite od_get_set.
  destruct (cell_eqb (col row "site_content_url") k) eqn:Ek.
  - apply cell_eqb_eq in Ek. subst k.
    by destruct (od_get cell_eqb _ updates).
  - by destruct (od_get cell_eqb k updates).
Qed.

Lemma count_sites_merge updates row k :
  count_entries k updates <= 1 -> count_entries k (merge_row updates row) <= 1.
Proof.
  unfold merge_row. rewrite count_entries_set. unfold od_mem.
  destruct (od_get cell_eqb (col row "site_content_url") updates) eqn:E;
    [lia|].
  destruct (cell_eqb k (col row "site_content_url")) eqn:Ek; [|lia].
  apply cell_eqb_eq in Ek. subst k. apply count_entries_get in E. lia.
Qed.

Lemma count_datasources_merge updates row k d :
  count_entries d (datasources_of updates k) <= 1 ->
  (count_entries d (datasources_of updates (col row "site_content_url")) <= 1) ->
  count_entries d (datasources_of (merge_row updates row) k) <= 1.
Proof.
  intros Hk Hs. rewrite datasources_of_merge.
  destruct (cell_eqb (col row "site_content_url") k); [|assumption].
  rewrite count_entries_set. unfold od_mem.
  destruct (od_get cell_eqb (col row "datasource_id") _) eqn:E; [lia|].
  destruct (cell_eqb d (col row "datasource_id")) eqn:Ed; [|lia].
  apply cell_eqb_eq in Ed. subst d. apply count_entries_get in E. lia.
Qed.

Lemma datasource_total_set ds (dd : datasource_entry) dss :
  datasource_total (od_set cell_eqb ds dd dss)
  + match od_get cell_eqb ds dss with
    | Some old => length (connections old)
    | None => 0
    end
  = datasource_total dss + length (connections dd).
Proof.
  unfold datasource_total.
  apply (list_sum_set (fun e => length (connections e))).
Qed.

Lemma total_connections_merge updates row :
  total_connections (merge_row updates row) = S (total_connections updates).
Proof.
  unfold total_connections, merge_row.
  pose proof (list_sum_set (fun s => datasource_total (datasources s))) as H.
  match goal with
  | |- context [od_set cell_eqb ?k ?v updates] => specialize (H k v updates)
  end.
  simpl in H.
  destruct (od_get cell_eqb (col row "site_content_url") updates) as [sd|];
    simpl in *.
  - pose proof (datasource_total_set (col row "datasource_id")
      {| datasource_name :=
           datasource_name
             (default {| datasource_name := col row "datasource_name";
                         connections := [] |}
                (od_get cell_eqb (col row "datasource_id") (datasources sd)));
         connections :=
           connections
             (default {| datasource_name := col row "datasource_name";
                         connections := [] |}
                (od_get cell_eqb (col row "datasource_id") (datasources sd)))
           ++ [conn_of_row row] |} (datasources sd)) as Hd.
    simpl in Hd. rewrite length_app in Hd. simpl in Hd.
    destruct (od_get cell_eqb (col row "datasource_id") (datasources sd));
      simpl in *; lia.
  - unfold datasource_total in H at 3. simpl in H. lia.
Qed.

Lemma total_connections_fold rows : forall updates,
  total_connections (fold_left merge_row rows updates)
  = total_connections updates + length rows.
Proof.
  induction rows as [|r rows IH]; intros updates; simpl; [lia|].
  rewrite IH, total_connections_merge. lia.
Qed.

(** ** The plan of a whole file of valid rows *)

Lemma connections_of_fold rows : forall updates k d,
  connections_of (fold_left merge_row rows updates) k d =
  connections_of updates k d
  ++ map conn_of_row (List.filter (of_datasource k d) rows).
Proof.
  induction rows as [|r rows IH]; intros updates k d; simpl.
  - by rewrite app_nil_r.
  - rewrite IH, connections_of_merge. unfold of_datasource at 2.
    destruct (_ && _); simpl; by rewrite <- app_assoc.
Qed.

Lemma site_meta_fold_some rows : forall updates k m,
  site_meta updates k = Some m ->
  site_meta (fold_left merge_row rows updates) k = Some m.
Proof.
  induction rows as [|r rows IH]; intros updates k m H; simpl; auto.
  apply IH. rewrite site_meta_merge. by rewrite H.
Qed.

Lemma site_meta_fold_none rows : forall updates k,
  site_meta updates k = None ->
  forallb (fun q => negb (of_site k q)) rows = true ->
  site_meta (fold_left merge_row rows updates) k = None.
Proof.
  induction rows as [|r rows IH]; intros updates k H Hn; simpl in *; auto.
  apply andb_true_iff in Hn as [Hr Hn]. apply IH; auto.
  rewrite site_meta_merge, H. unfold of_site in Hr.
  by destruct (cell_eqb _ k).
Qed.

Lemma name_of_fold_some rows : forall updates k d n,
  name_of updates k d = Some n ->
  name_of (fold_left merge_row rows updates) k d = Some n.
Proof.
  induction rows as [|r rows IH]; intros updates k d n H; simpl; auto.
  apply IH. rewrite name_of_merge. by rewrite H.
Qed.

Lemma name_of_fold_none rows : forall updates k d,
  name_of updates k d = None ->
  forallb (fun q => negb (of_datasource k d q)) rows = true ->
  name_of (fold_left merge_row rows updates) k d = None.
Proof.
  induction rows as [|r rows IH]; intros updates k d H Hn; simpl in *; auto.
  apply andb_true_iff in Hn as [Hr Hn]. apply IH; auto.
  rewrite name_of_merge, H. unfold of_datasource in Hr.
  by destruct (_ && _).
Qed.

Lemma count_sites_fold rows : forall updates,
  (forall k, count_entries k updates <= 1) ->
  forall k, count_entries k (fold_left merge_row rows updates) <= 1.
Proof.
  induction rows as [|r rows IH]; intros updates H k; simpl; auto.
  apply IH. intros k'. by apply count_sites_merge.
Qed.

Lemma count_datasources_fold rows : forall updates,
  (forall k d, count_entries d (datasources_of updates k) <= 1) ->
  forall k d,
    count_entries d (datasources_of (fold_left merge_row rows updates) k) <= 1.
Proof.
  induction rows as [|r rows IH]; intros updates H k d; simpl; auto.
  apply IH. intros k' d'. by apply count_datasources_merge.
Qed.

Lemma filter_In_conn (f : gmap string cell -> bool) r rows :
  In r rows -> f r = true ->
  In (conn_of_row r) (map conn_of_row (List.filter f rows)).
Proof.
  intros Hin Hf. apply in_map. apply filter_In. auto.
Qed.

(** C4. When every row of the file is valid and two of its rows share
    [site_content_url] and [datasource_id] but differ in [connection_id],
    the plan built by the import reader has exactly one site entry for that
    content URL and, under it, exactly one data source entry for that id;
    the connection list of that entry is made of the updates of exactly the
    rows naming that data source, in file order, so it holds the two
    (distinct) updates of the two rows. *)
Theorem grouping_one_entry_two_updates
    (rows : list (gmap string cell)) (r1 r2 : gmap string cell) :
  forallb valid_row rows = true ->
  In r1 rows -> In r2 rows ->
  col r1 "site_content_url" = col r2 "site_content_url" ->
  col r1 "datasource_id" = col r2 "datasource_id" ->
  col r1 "connection_id" <> col r2 "connection_id" ->
  exists updates site_data datasource_data,
    collect_updates rows = Ok updates /\
    count_entries (col r1 "site_content_url") updates = 1 /\
    od_get cell_eqb (col r1 "site_content_url") updates = Some site_data /\
    count_entries (col r1 "datasource_id") (datasources site_data) = 1 /\
    od_get cell_eqb (col r1 "datasource_id") (datasources site_data)
      = Some datasource_data /\
    connections datasource_data =
      map conn_of_row
        (List.filter (of_datasource (col r1 "site_content_url")
                                    (col r1 "datasource_id")) rows) /\
    In (conn_of_row r1) (connections datasource_data) /\
    In (conn_of_row r2) (connections datasource_data) /\
    conn_of_row r1 <> conn_of_row r2.
Proof.
  intros Hv H1 H2 Hs Hd Hc.
  set (k := col r1 "site_content_url"). set (d := col r1 "datasource_id").
  set (updates := fold_left merge_row rows []).
  assert (Hconn : connections_of updates k d =
                  map conn_of_row (List.filter (of_datasource k d) rows))
    by apply (connections_of_fold rows [] k d).
  assert (In1 : In (conn_of_row r1) (connections_of updates k d)).
  { rewrite Hconn. apply filter_In_conn; auto.
    unfold of_datasource, k, d. by rewrite !cell_eqb_refl. }
  assert (In2 : In (conn_of_row r2) (connections_of updates k d)).
  { rewrite Hconn. apply filter_In_conn; auto.
    unfold of_datasource, k, d. rewrite Hs, Hd. by rewrite !cell_eqb_refl. }
  pose proof (count_sites_fold rows [] (fun _ => Nat.le_0_1) k) as Hk.
  pose proof (count_datasources_fold rows [] (fun _ _ => Nat.le_0_1) k d) as Hdd.
  fold updates in Hk, Hdd.
  unfold connections_of, datasources_of in *.
  destruct (od_get cell_eqb k updates) as [sd|] eqn:Esd;
    [|simpl in In1; contradiction].
  destruct (od_get cell_eqb d (datasources sd)) as [dd|] eqn:Edd;
    [|simpl in In1; contradiction].
  exists updates, sd, dd. split; [by apply collect_from_valid|].
  apply count_entries_pos in Esd as Hk'. apply count_entries_pos in Edd as Hd'.
  repeat split; auto; try lia.
  intros E. apply Hc. by injection E.
Qed.

(** C10. In a file of valid rows, let [r] be a row, [pre] the rows before
    it and [post] the rows after it. If no row of [pre] names [r]'s site,
    the plan keeps [r]'s [site_id] and [site_name] for that site; if no row
    of [pre] names [r]'s data source under that site, the plan keeps [r]'s
    [datasource_name]. The rows of [post] never overwrite a stored
    [site_id], [site_name] or [datasource_name]: all they do is append
    their own updates to the connection lists. *)
Theorem first_row_metadata_kept
    (pre post : list (gmap string cell)) (r : gmap string cell) :
  forallb valid_row (pre ++ r :: post) = true ->
  exists first_part updates,
    collect_updates (pre ++ [r]) = Ok first_part /\
    collect_updates (pre ++ r :: post) = Ok updates /\
    (forallb (fun q => negb (of_site (col r "site_content_url") q)) pre = true ->
       site_meta updates (col r "site_content_url")
       = Some (col r "site_id", col r "site_name")) /\
    (forallb (fun q => negb (of_datasource (col r "site_content_url")
                                           (col r "datasource_id") q)) pre = true ->
       name_of updates (col r "site_content_url") (col r "datasource_id")
       = Some (col r "datasource_name")) /\
    (forall k m, site_meta first_part k = Some m -> site_meta updates k = Some m) /\
    (forall k d n, name_of first_part k d = Some n ->
                   name_of updates k d = Some n) /\
    (forall k d, connections_of updates k d =
                 connections_of first_part k d
                 ++ map conn_of_row (List.filter (of_datasource k d) post)).
Proof.
  intros Hv.
  assert (Hv1 : forallb valid_row (pre ++ [r]) = true).
  { rewrite forallb_app in *. simpl in *.
    apply andb_true_iff in Hv as [Hpre Hr].
    apply andb_true_iff in Hr as [Hr _]. by rewrite Hpre, Hr. }
  exists (fold_left merge_row (pre ++ [r]) []),
         (fold_left merge_row (pre ++ r :: post) []).
  split; [by apply collect_from_valid|].
  split; [by apply collect_from_valid|].
  replace (pre ++ r :: post) with ((pre ++ [r]) ++ post)
    by (by rewrite <- app_assoc).
  rewrite (fold_left_app merge_row (pre ++ [r]) post).
  rewrite (fold_left_app merge_row pre [r]). simpl.
  repeat split.
  - intros Hn. apply site_meta_fold_some. rewrite site_meta_merge.
    rewrite (site_meta_fold_none pre [] _ eq_refl Hn).
    by rewrite cell_eqb_refl.
  - intros Hn. apply name_of_fold_some. rewrite name_of_merge.
    rewrite (name_of_fold_none pre [] _ _ eq_refl Hn).
    by rewrite !cell_eqb_refl.
  - intros k m. apply site_meta_fold_some.
  - intros k d n. apply name_of_fold_some.
  - intros k d. apply connections_of_fold.
Qed.

(** The plan of a file of valid rows has as many connection updates as the
    file has rows. *)
Lemma collect_total rows :
  forallb valid_row rows = true ->
  exists updates,
    collect_updates rows = Ok updates /\
    total_connections updates = length rows.
Proof.
  intros Hv. exists (fold_left merge_row rows []).
  split; [by apply collect_from_valid|].
  by rewrite total_connections_fold.
Qed.

(** ** Export, edit, import *)

Lemma filled_line_valid (py_repr : json -> string) (r : ConnectionRecord.t)
    (cred : string * string) :
  fst cred <> "" -> snd cred <> "" ->
  fill_line cred (write_row py_repr r) <> [] /\
  valid_row (mk_row header (fill_line cred (write_row py_repr r))) = true.
Proof.
  destruct cred as [u p]. simpl. intros Hu Hp.
  unfold write_row, ConnectionRecord.values, fill_line. simpl.
  split; [discriminate|].
  destruct u as [|a u]; [done|]. destruct p as [|b p]; [done|].
  vm_compute. reflexivity.
Qed.

Lemma filled_lines_valid (py_repr : json -> string)
    (creds : list (string * string)) :
  Forall (fun c => fst c <> "" /\ snd c <> "") creds ->
  forall datasources : list ConnectionRecord.t,
    let lines := zip_with fill_line creds (map (write_row py_repr) datasources) in
    filter (fun l => l <> []) lines = lines /\
    forallb valid_row (map (mk_row header) lines) = true.
Proof.
  induction 1 as [|c creds [Hu Hp] _ IH]; intros [|r datasources]; simpl;
    try (split; reflexivity).
  destruct (filled_line_valid py_repr r c Hu Hp) as [Hne Hvalid].
  destruct (IH datasources) as [Hf Hv].
  rewrite filter_cons_True by assumption.
  rewrite Hf, Hvalid, Hv. auto.
Qed.

(** C3. Any sequence of N ConnectionRecords, written out as
    [build_datasources_csv] writes it and read back by the import reader
    after the two credential columns of every line were filled with
    non-empty values, gives an update plan whose connection updates, summed
    over all sites and data sources, number N. *)
Theorem export_reimport_count (py_repr : json -> string)
    (datasources : list ConnectionRecord.t) (creds : list (string * string)) :
  length creds = length datasources ->
  Forall (fun c => fst c <> "" /\ snd c <> "") creds ->
  exists updates,
    collect_updates
      (DictReader (fill creds (export_csv py_repr datasources))) = Ok updates /\
    total_connections updates = length datasources.
Proof.
  intros Hlen Hcreds.
  destruct (filled_lines_valid py_repr creds Hcreds datasources) as [Hf Hv].
  unfold export_csv, fill, DictReader. rewrite Hf.
  destruct (collect_total _ Hv) as (updates & Hok & Htotal).
  exists updates. split; [assumption|].
  rewrite Htotal, length_map, length_zip_with, length_map. lia.
Qed.

(** ** Running the program against a server *)

Ltac unfold_M :=
  unfold mbind, M_bind, mret, M_ret, lift, print, send,
         requests_post, requests_get, requests_put in *.

Ltac open_requests :=
  unfold signin_request, signout_request, put_request,
         datasources_request, connections_request in *.
Ltac open_get_api_token := unfold get_api_token.
Ltac open_update_connection := unfold update_connection.
Ltac open_update_site := unfold update_site.
Ltac open_push_updates := unfold push_updates.
Ltac open_update_datasources := unfold update_datasources_from_csv.
Ltac open_walk_source := unfold walk_source.
Ltac open_walk_site := unfold walk_site.

Section Runs.

Variable py_repr : json -> string.
Variables TABLEAU_SERVER_URL API_VERSION USERNAME PASSWORD : string.
Variable S : Type.
Variable serve : S -> request -> S * response.

Local Abbreviation get_api_token :=
  (get_api_token TABLEAU_SERVER_URL API_VERSION S serve).
Local Abbreviation update_connection :=
  (update_connection py_repr TABLEAU_SERVER_URL API_VERSION S serve).
Local Abbreviation update_site :=
  (update_site py_repr TABLEAU_SERVER_URL API_VERSION USERNAME PASSWORD S serve).
Local Abbreviation push_updates :=
  (push_updates py_repr TABLEAU_SERVER_URL API_VERSION USERNAME PASSWORD S serve).
Local Abbreviation update_datasources_from_csv :=
  (update_datasources_from_csv py_repr TABLEAU_SERVER_URL API_VERSION
                               USERNAME PASSWORD S serve).
Local Abbreviation walk_source :=
  (walk_source py_repr TABLEAU_SERVER_URL API_VERSION S serve).
Local Abbreviation walk_site :=
  (walk_site py_repr TABLEAU_SERVER_URL API_VERSION USERNAME PASSWORD S serve).
Local Abbreviation signin_request :=
  (signin_request TABLEAU_SERVER_URL API_VERSION).
Local Abbreviation signout_request :=
  (signout_request TABLEAU_SERVER_URL API_VERSION).
Local Abbreviation put_request := (put_request TABLEAU_SERVER_URL API_VERSION).
Local Abbreviation datasources_request :=
  (datasources_request py_repr TABLEAU_SERVER_URL API_VERSION).
Local Abbreviation connections_request :=
  (connections_request py_repr TABLEAU_SERVER_URL API_VERSION).

Lemma get_api_token_run username password contentUrl (w : world S) :
  get_api_token username password contentUrl w =
  (token_of (answer serve w (signin_request username password contentUrl)),
   deliver serve w (signin_request username password contentUrl)).
Proof.
  open_get_api_token. open_requests. unfold_M. simpl.
  by destruct (token_of _).
Qed.

Lemma update_connection_run site_data t datasource_id datasource_data
    connection (w : world S) j :
  nonempty (password connection) = true ->
  body (answer serve w (put_request site_data (JStr t) datasource_id connection))
    = Some j ->
  exists redacted,
    redact (password connection) = Ok redacted /\
    update_connection site_data (JStr t) datasource_id datasource_data
                      connection w =
    let w1 := deliver serve w
                (put_request site_data (JStr t) datasource_id connection) in
    match py_contains "connection" j with
    | Ok updated =>
        (Ok tt,
         printed w1
           (if negb updated
            then error_message py_repr site_data datasource_data j
            else success_message datasource_data connection redacted))
    | Raise e => (Raise e, w1)
    end.
Proof.
  intros Hp Hj. open_update_connection. open_requests. unfold_M.
  simpl in *.
  destruct (password connection) as [[|a p]|] eqn:E; try discriminate.
  eexists. split; [reflexivity|].
  unfold redact, resp_json. rewrite Hj. simpl.
  by destruct (py_contains "connection" j) as [[]|].
Qed.

#[local] Existing Instances M_ret M_bind.

(** *** What a run can send *)

Lemma emits_ret {A} P (a : A) : emits P (mret a : M S A).
Proof. intros w. exists []. simpl. by rewrite app_nil_r. Qed.

Lemma emits_lift {A} P (r : result A) : emits P (lift r : M S A).
Proof. intros w. exists []. simpl. by rewrite app_nil_r. Qed.

Lemma emits_print P line : emits P (print line : M S unit).
Proof. intros w. exists []. simpl. by rewrite app_nil_r. Qed.

Lemma emits_read_csv P path : emits P (read_csv path : M S csv_file).
Proof.
  intros w. exists []. unfold read_csv.
  destruct (files w !! path); simpl; by rewrite app_nil_r.
Qed.

Lemma emits_send (P : request -> Prop) req : P req -> emits P (send serve req).
Proof.
  intros HP w. unfold send.
  destruct (forallb _ _); simpl.
  - exists [req]. auto.
  - exists []. by rewrite app_nil_r.
Qed.

Lemma emits_bind {A B} P (m : M S A) (k : A -> M S B) :
  emits P m -> (forall a, emits P (k a)) -> emits P (m ≫= k).
Proof.
  intros Hm Hk w. unfold mbind, M_bind.
  destruct (Hm w) as (new1 & E1 & F1).
  destruct (m w) as [[a|e] w1]; simpl in *.
  - destruct (Hk a w1) as (new2 & E2 & F2).
    exists (new1 ++ new2). rewrite E2, E1, app_assoc. split; [done|].
    by apply Forall_app.
  - exists new1. auto.
Qed.

Lemma emits_foldM {A B} P (f : B -> A -> M S B) (l : list A) :
  (forall b a, emits P (f b a)) -> forall b, emits P (foldM S f l b).
Proof.
  intros Hf. induction l as [|a l IH]; intros b; simpl.
  - apply emits_ret.
  - apply emits_bind; auto.
Qed.

Lemma emits_get_api_token username password contentUrl :
  emits has_payload (get_api_token username password contentUrl).
Proof.
  open_get_api_token. apply emits_bind.
  - apply emits_send. discriminate.
  - intros r. apply emits_lift.
Qed.

Lemma emits_update_connection site_data token datasource_id datasource_data
    connection :
  emits has_payload
    (update_connection site_data token datasource_id datasource_data connection).
Proof.
  open_update_connection. apply emits_bind.
  - apply emits_send. discriminate.
  - intros r. repeat (apply emits_bind; [apply emits_lift|intros ?]).
    apply emits_print.
Qed.

Lemma emits_push_updates updates : emits has_payload (push_updates updates).
Proof.
  open_push_updates. unfold for_each. apply emits_foldM.
  intros _ [site_content_url site_data]. open_update_site.
  apply emits_bind; [apply emits_print|intros _].
  apply emits_bind; [apply emits_get_api_token|intros token].
  unfold for_each. apply emits_foldM. intros _ [datasource_id datasource_data].
  apply emits_foldM. intros _ connection. apply emits_update_connection.
Qed.

Lemma emits_update_datasources path :
  emits has_payload (update_datasources_from_csv path).
Proof.
  open_update_datasources.
  apply emits_bind; [apply emits_read_csv|intros f].
  apply emits_bind; [apply emits_print|intros _].
  apply emits_bind; [apply emits_lift|intros updates].
  apply emits_push_updates.
Qed.

(** C2. However a run of [update_datasources_from_csv] ends, it sends no
    sign-out request, for no token: every request it sends carries a
    payload (the sign-in of a site, the updates of its connections), and
    the request of [logout] carries none. The per-site sequence stops at
    Updating; SignedOut is never reached. *)
Theorem update_never_signs_out (path : string) (w : world S) (token : json) :
  ~ In (signout_request token) (sent w) ->
  ~ In (signout_request token) (sent (snd (update_datasources_from_csv path w))).
Proof.
  intros Hw. destruct (emits_update_datasources path w) as (new & E & F).
  rewrite E. intros Hin. apply in_app_or in Hin as [Hin|Hin]; [auto|].
  rewrite Forall_forall in F. apply list_elem_of_In in Hin.
  apply (F _ Hin). reflexivity.
Qed.

(** *** The reader stops before anything is sent *)

Lemma foldR_valid_prefix pre : forall rest updates,
  forallb valid_row pre = true ->
  foldR add_row (pre ++ rest) updates
  = foldR add_row rest (fold_left merge_row pre updates).
Proof.
  induction pre as [|q pre IH]; intros rest updates Hv; simpl in *; auto.
  apply andb_true_iff in Hv as [Hq Hpre].
  unfold_result. rewrite add_row_valid by assumption. by apply IH.
Qed.

Lemma add_row_empty_username updates r :
  r !! "updated_username" = Some (Some "") ->
  add_row updates r = Raise (ValueError username_message).
Proof.
  intros H. unfold add_row, not_provided, row_get. by rewrite H.
Qed.


Lemma update_datasources_run path (w : world S) f :
  files w !! path = Some f ->
  update_datasources_from_csv path w =
  let w' := printed w ("Collecting data from CSV [" +:+ path +:+ "]...") in
  match collect_updates (DictReader f) with
  | Ok updates => push_updates updates w'
  | Raise e => (Raise e, w')
  end.
Proof.
  intros Hf. open_update_datasources. unfold_M. unfold read_csv.
  rewrite Hf. simpl. by destruct (collect_updates _).
Qed.


(** *** Signing in *)

(** C7, as the code has it. [get_api_token] sends one sign-in request and
    its outcome is read off the body of the answer alone; the status code
    plays no part. A body with [credentials.token] gives that token,
    whatever the status; a JSON object without [credentials] fails with
    [KeyError('credentials')]; a [credentials] object without [token]
    fails with [KeyError('token')]. *)
Theorem sign_in_reads_body_only (username password : string)
    (contentUrl : json) (w : world S) :
  let req := signin_request username password contentUrl in
  let r := answer serve w req in
  get_api_token username password contentUrl w
    = (token_of r, deliver serve w req) /\
  (forall token fields,
     body r = Some (JObj fields) ->
     assoc "credentials" fields = Some token ->
     forall t, py_getitem token "token" = Ok t ->
     fst (get_api_token username password contentUrl w) = Ok t) /\
  (forall fields,
     body r = Some (JObj fields) ->
     assoc "credentials" fields = None ->
     fst (get_api_token username password contentUrl w)
     = Raise (KeyError "credentials")) /\
  (forall fields inner,
     body r = Some (JObj fields) ->
     assoc "credentials" fields = Some (JObj inner) ->
     assoc "token" inner = None ->
     fst (get_api_token username password contentUrl w)
     = Raise (KeyError "token")).
Proof.
  intros req r. rewrite get_api_token_run. fold req. fold r. simpl.
  split; [reflexivity|].
  unfold token_of, resp_json. unfold_result.
  repeat split.
  - intros token fields Hb Hc t Ht. rewrite Hb. simpl. by rewrite Hc.
  - intros fields Hb Hc. rewrite Hb. simpl. by rewrite Hc.
  - intros fields inner Hb Hc Ht. rewrite Hb. simpl. rewrite Hc. simpl.
    by rewrite Ht.
Qed.

(** *** The password in the log *)



(** *** A run against a server that answers in the documented shapes *)












(** *** Every plan that the reader builds is ready to be pushed *)

Lemma forallb_od_set {V} (P : V -> bool) k (v : V) d :
  forallb (fun e => P (snd e)) d = true -> P v = true ->
  forallb (fun e => P (snd e)) (od_set cell_eqb k v d) = true.
Proof.
  intros Hd Hv. induction d as [|[k' v'] d IH]; simpl in *.
  - by rewrite Hv.
  - apply andb_true_iff in Hd as [H1 H2].
    destruct (cell_eqb k k'); simpl; [by rewrite Hv, H2|].
    by rewrite H1, IH.
Qed.

Lemma forallb_od_get {V} (P : V -> bool) k (v : V) d :
  forallb (fun e => P (snd e)) d = true ->
  od_get cell_eqb k d = Some v -> P v = true.
Proof.
  intros Hd. induction d as [|[k' v'] d IH]; simpl in *; [discriminate|].
  apply andb_true_iff in Hd as [H1 H2].
  destruct (cell_eqb k k'); [|auto]. intros E. injection E as <-. exact H1.
Qed.

Lemma provided_nonempty row k :
  not_provided row k = Ok false ->
  exists c, row_get row k = Ok c /\ nonempty c = true.
Proof.
  unfold not_provided, row_get.
  destruct (row !! k) as [[[|a s]|]|]; simpl; try discriminate.
  intros _. eexists. split; reflexivity.
Qed.






(** *** Listings without their collection *)

Lemma foldM_cons {A B} (f : B -> A -> M S B) a l b (w : world S) :
  foldM S f (a :: l) b w =
  match f b a w with
  | (Ok b', w') => foldM S f l b' w'
  | (Raise e, w') => (Raise e, w')
  end.
Proof. reflexivity. Qed.

(** C6. When the answer to the data source listing of a site is
    [{"datasources": {...}}] without a [datasource] key, the turn of the
    site loop signs in, asks for the listing, signs out and returns the
    records it was given, raising nothing, and the loop goes on with the
    next site. Likewise, when the answer to the connection listing of a
    data source is [{"connections": {...}}] without a [connection] key,
    the turn of the data source loop returns the records it was given and
    the loop goes on with the next data source. *)
Theorem missing_collection_gives_no_record :
  (forall datasources site_id site_data rest (w : world S) t j fields,
     let w0 := printed w ("Getting datasources for "
                          +:+ py_str py_repr (name site_data) +:+ " site...") in
     let signin := signin_request USERNAME PASSWORD (contentUrl site_data) in
     let listing := datasources_request site_id (JStr t) in
     let w1 := deliver serve w0 signin in
     let w3 := deliver serve (deliver serve w1 listing)
                 (signout_request (JStr t)) in
     token_of (answer serve w0 signin) = Ok (JStr t) ->
     body (answer serve w1 listing) = Some j ->
     py_getitem j "datasources" = Ok (JObj fields) ->
     assoc "datasource" fields = None ->
     walk_site datasources (site_id, site_data) w = (Ok datasources, w3) /\
     foldM S walk_site ((site_id, site_data) :: rest) datasources w
     = foldM S walk_site rest datasources w3) /\
  (forall datasources site_id site_data t source source_id rest
          (w : world S) j fields,
     let listing := connections_request site_id source_id (JStr t) in
     let w1 := deliver serve w listing in
     py_getitem source "id" = Ok source_id ->
     body (answer serve w listing) = Some j ->
     py_getitem j "connections" = Ok (JObj fields) ->
     assoc "connection" fields = None ->
     walk_source site_id site_data (JStr t) datasources source w
     = (Ok datasources, w1) /\
     foldM S (walk_source site_id site_data (JStr t)) (source :: rest)
           datasources w
     = foldM S (walk_source site_id site_data (JStr t)) rest datasources w1).
Proof.
  split.
  - intros datasources site_id site_data rest w t j fields
           w0 signin listing w1 w3 Ht Hb Hj Hnone.
    assert (Hrun : walk_site datasources (site_id, site_data) w
                   = (Ok datasources, w3)).
    { open_walk_site. unfold mbind at 1. unfold M_bind at 1. unfold print.
      fold w0. unfold mbind at 1. unfold M_bind at 1.
      rewrite get_api_token_run. fold signin. rewrite Ht. fold w1.
      unfold mbind at 1. unfold M_bind at 1.
      unfold requests_get, send. change (forallb _ _) with true. cbv iota.
      fold (datasources_request site_id (JStr t)). fold listing.
      unfold mbind, M_bind, lift, resp_json. rewrite Hb, Hj. simpl.
      rewrite Hnone. reflexivity. }
    split; [exact Hrun|]. by rewrite foldM_cons, Hrun.
  - intros datasources site_id site_data t source source_id rest w j fields
           listing w1 Hid Hb Hj Hnone.
    assert (Hrun : walk_source site_id site_data (JStr t) datasources source w
                   = (Ok datasources, w1)).
    { open_walk_source. unfold mbind at 1. unfold M_bind at 1.
      unfold lift at 1. rewrite Hid.
      unfold mbind at 1. unfold M_bind at 1.
      unfold requests_get, send. change (forallb _ _) with true. cbv iota.
      fold (connections_request site_id source_id (JStr t)). fold listing.
      unfold mbind, M_bind, lift, resp_json. rewrite Hb, Hj. simpl.
      rewrite Hnone. reflexivity. }
    split; [exact Hrun|]. by rewrite foldM_cons, Hrun.
Qed.

End Runs.

(** ** Rows with a missing field *)

Lemma pad_lookup (ks : list string) : forall (d : gmap string cell) k,
  In k ks \/ d !! k = Some None ->
  fold_left (fun d k => <[k := None]> d) ks d !! k = Some None.
Proof.
  induction ks as [|k0 ks IH]; intros d k H; simpl.
  - destruct H as [[]|H]. exact H.
  - apply IH. destruct (decide (k0 = k)) as [->|Hne].
    + right. apply lookup_insert_eq.
    + destruct H as [[H|H]|H]; [done|by left|].
      right. by rewrite lookup_insert_ne.
Qed.

Lemma pad_other (ks : list string) : forall (d : gmap string cell) k,
  ~ In k ks -> fold_left (fun d k => <[k := None]> d) ks d !! k = d !! k.
Proof.
  induction ks as [|k0 ks IH]; intros d k H; simpl; [done|].
  rewrite IH by (intros Hin; apply H; by right).
  apply lookup_insert_ne. intros ->. apply H. by left.
Qed.

Lemma zip_other (kvs : list (string * string)) :
  forall (d : gmap string cell) k,
  ~ In k (map fst kvs) ->
  fold_left (fun d kv => <[fst kv := Some (snd kv)]> d) kvs d !! k = d !! k.
Proof.
  induction kvs as [|[k0 v0] kvs IH]; intros d k H; simpl in *; [done|].
  rewrite IH by (intros Hin; apply H; by right).
  apply lookup_insert_ne. intros ->. apply H. by left.
Qed.

Lemma In_zip_fst (ks vs : list string) k :
  In k (map fst (zip ks vs)) -> In k ks.
Proof.
  revert vs. induction ks as [|k0 ks IH]; intros [|v vs]; simpl; try done.
  intros [->|H]; [by left|right; eauto].
Qed.

Lemma In_drop (n : nat) (l : list string) k : In k (drop n l) -> In k l.
Proof.
  revert l. induction n as [|n IH]; intros [|x l]; simpl; try done.
  intros H. right. by apply IH.
Qed.

Lemma mk_row_short fieldnames line k :
  In k (drop (length line) fieldnames) ->
  mk_row fieldnames line !! k = Some None.
Proof. intros H. unfold mk_row. apply pad_lookup. by left. Qed.

Lemma mk_row_absent fieldnames line k :
  ~ In k fieldnames -> mk_row fieldnames line !! k = None.
Proof.
  intros H. unfold mk_row.
  rewrite pad_other by (intros Hin; apply H; by apply In_drop in Hin).
  rewrite zip_other by (intros Hin; apply H; by apply In_zip_fst in Hin).
  apply lookup_empty.
Qed.

(** C9, as the code has it. In the condition
    [len(row[k]) == 0 or row[k] is None] the length is taken first: when
    the value is [None] it raises TypeError, and whenever it yields a
    truth value the row holds a string and the value is that of
    [len(...) == 0], so [is None] never decides. A field is [None] when
    its line is shorter than the header ([csv.DictReader] pads it). Hence,
    in a file whose rows before [r] are valid, a row [r] with
    [updated_username] [None], or with a username and [updated_password]
    [None], makes the reader raise TypeError and not the documented
    ValueError. A column that the header lacks is another matter: the row
    has no such key and the subscript raises KeyError. *)
Theorem none_field_raises_type_error :
  (forall (row : gmap string cell) k,
     row !! k = Some None -> not_provided row k = Raise TypeError) /\
  (forall (row : gmap string cell) k b,
     not_provided row k = Ok b ->
     exists s, row !! k = Some (Some s) /\ b = Nat.eqb (String.length s) 0) /\
  (forall fieldnames line k,
     In k (drop (length line) fieldnames) ->
     mk_row fieldnames line !! k = Some None) /\
  (forall pre (r : gmap string cell) post,
     forallb valid_row pre = true ->
     r !! "updated_username" = Some None \/
     (nonempty (col r "updated_username") = true /\
      r !! "updated_password" = Some None) ->
     collect_updates (pre ++ r :: post) = Raise TypeError) /\
  (forall fieldnames line k,
     ~ In k fieldnames -> mk_row fieldnames line !! k = None) /\
  (forall (row : gmap string cell) k,
     row !! k = None -> not_provided row k = Raise (KeyError k)).
Proof.
  assert (Hnone : forall (row : gmap string cell) k,
            row !! k = Some None -> not_provided row k = Raise TypeError).
  { intros row k H. unfold not_provided, row_get. by rewrite H. }
  split; [exact Hnone|]. split; [|split; [|split; [|split]]].
  - intros row k b. unfold not_provided, row_get.
    destruct (row !! k) as [[s|]|]; simpl; try discriminate.
    destruct s as [|a s]; simpl; intros E; injection E as <-;
      eexists; split; reflexivity.
  - apply mk_row_short.
  - intros pre r post Hpre H. unfold collect_updates.
    rewrite foldR_valid_prefix by assumption. simpl. unfold_result.
    unfold add_row. unfold_result. destruct H as [Hu|[Hu Hp]].
    + by rewrite (Hnone r _ Hu).
    + apply not_provided_nonempty in Hu as [_ Hu]. rewrite Hu.
      by rewrite (Hnone r _ Hp).
  - apply mk_row_absent.
  - intros row k H. unfold not_provided, row_get. by rewrite H.
Qed.

(** * The statements on sample inputs *)



Lemma update_never_signs_out_witness :
  ~ In (signout_request sample_url sample_version (JStr "t0k3n"))
       (sent (snd (sample_update sample_file))).
Proof.
  apply (update_never_signs_out sample_repr sample_url sample_version
           "admin" "hunter2" nat sample_serve "datasources.csv"
           (sample_world sample_file) (JStr "t0k3n")).
  simpl. intros [].
Defined.

(** The calls of a run on the sample file: per site a sign-in and the
    updates, and no sign-out. *)
Lemma update_run_calls :
  calls (sent (snd (sample_update sample_file))) =
  [ (POST, "https://tableau.example.com/api/3.4/auth/signin");
    (PUT, "https://tableau.example.com/api/3.4/sites/1/datasources/d1/connections/c1");
    (PUT, "https://tableau.example.com/api/3.4/sites/1/datasources/d1/connections/c2");
    (POST, "https://tableau.example.com/api/3.4/auth/signin");
    (PUT, "https://tableau.example.com/api/3.4/sites/2/datasources/d7/connections/c3") ].
Proof. vm_compute. reflexivity. Qed.

Lemma export_reimport_count_witness :
  exists updates,
    collect_updates
      (DictReader (fill sample_credentials
                        (export_csv sample_repr sample_records))) = Ok updates /\
    total_connections updates = 2.
Proof.
  apply (export_reimport_count sample_repr sample_records sample_credentials).
  - reflexivity.
  - repeat (constructor; [split; discriminate|]). constructor.
Defined.

Lemma grouping_one_entry_two_updates_witness :
  exists updates site_data datasource_data,
    collect_updates sample_rows = Ok updates /\
    count_entries (Some "sales") updates = 1 /\
    od_get cell_eqb (Some "sales") updates = Some site_data /\
    count_entries (Some "d1") (datasources site_data) = 1 /\
    od_get cell_eqb (Some "d1") (datasources site_data) = Some datasource_data /\
    connections datasource_data =
      [ conn_of_row (sample_row 0); conn_of_row (sample_row 1) ].
Proof.
  destruct (grouping_one_entry_two_updates sample_rows
              (sample_row 0) (sample_row 1))
    as (updates & sd & dd & H1 & H2 & H3 & H4 & H5 & H6 & _).
  - vm_compute. reflexivity.
  - left. reflexivity.
  - right. left. reflexivity.
  - vm_compute. reflexivity.
  - vm_compute. reflexivity.
  - vm_compute. discriminate.
  - exists updates, sd, dd. repeat split; assumption.
Defined.


Lemma missing_collection_gives_no_record_witness :
  fst (walk_site sample_repr sample_url sample_version "admin" "hunter2"
         nat sample_serve []
         (JStr "1", {| name := JStr "Sales"; contentUrl := JStr "sales" |})
         (sample_world []))
  = Ok [].
Proof.
  destruct (missing_collection_gives_no_record sample_repr sample_url
              sample_version "admin" "hunter2" nat sample_serve) as [H _].
  destruct (H [] (JStr "1")
              {| name := JStr "Sales"; contentUrl := JStr "sales" |} []
              (sample_world []) "t0k3n"
              (JObj [("datasources", JObj [])]) []) as [Hrun _].
  - reflexivity.
  - reflexivity.
  - reflexivity.
  - reflexivity.
  - rewrite Hrun. reflexivity.
Defined.

(** A server answers a sign-in with status 401, and [get_api_token]
    returns the token found in the body. *)
Lemma sign_in_rejected_with_401_returns_token :
  let w := {| server := tt; sent := []; stdout := []; files := ∅ |} in
  status_code (answer rejecting_serve w
                 (signin_request sample_url sample_version
                                 "admin" "wrong" JNull)) = 401%Z /\
  fst (get_api_token sample_url sample_version unit rejecting_serve
                     "admin" "wrong" JNull w)
  = Ok (JStr "stale").
Proof. split; vm_compute; reflexivity. Qed.

Lemma sign_in_reads_body_only_witness :
  fst (get_api_token sample_url sample_version nat sample_serve
                     "admin" "hunter2" (JStr "sales") (sample_world []))
  = Ok (JStr "t0k3n").
Proof.
  destruct (sign_in_reads_body_only sample_url sample_version nat sample_serve
              "admin" "hunter2" (JStr "sales") (sample_world []))
    as (_ & H & _).
  apply (H (JObj [("token", JStr "t0k3n")])
           [("credentials", JObj [("token", JStr "t0k3n")])]);
    reflexivity.
Defined.


(** A file whose header has no [updated_username] column: the row has no
    such key (its value is not [None]), and the reader raises KeyError,
    not TypeError. *)
Lemma absent_column_raises_key_error :
  ~ In "updated_username" (nth 0 file_without_username_column []) /\
  Forall (fun r : gmap string cell => r !! "updated_username" = None)
         (DictReader file_without_username_column) /\
  collect_updates (DictReader file_without_username_column)
  = Raise (KeyError "updated_username") /\
  collect_updates (DictReader file_without_username_column)
  <> Raise TypeError.
Proof.
  split; [|split; [|split]].
  - vm_compute. intuition discriminate.
  - repeat constructor.
  - vm_compute. reflexivity.
  - vm_compute. discriminate.
Qed.

Lemma none_field_raises_type_error_witness :
  mk_row header (nth 2 file_with_short_line []) !! "updated_username"
  = Some None /\
  collect_updates (DictReader file_with_short_line) = Raise TypeError.
Proof.
  destruct none_field_raises_type_error as (_ & _ & Hshort & Hloop & _).
  split.
  - apply Hshort. vm_compute. left. reflexivity.
  - apply (Hloop [sample_row 0] (mk_row header (nth 2 file_with_short_line []))
                 []).
    + vm_compute. reflexivity.
    + left. vm_compute. reflexivity.
Defined.

Lemma first_row_metadata_kept_witness :
  exists updates,
    collect_updates sample_rows = Ok updates /\
    site_meta updates (Some "sales") = Some (Some "1", Some "Sales") /\
    name_of updates (Some "sales") (Some "d1") = Some (Some "Orders").
Proof.
  destruct (first_row_metadata_kept [] [sample_row 1; sample_row 2]
              (sample_row 0))
    as (first_part & updates & _ & Hrun & Hsite & Hname & _).
  - vm_compute. reflexivity.
  - exists updates. split; [exact Hrun|].
    split; [apply Hsite|apply Hname]; reflexivity.
Defined.

(** * Further properties of the two entry points *)

(** ** What a run can do to the world *)

Ltac open_get_sites := unfold get_sites.
Ltac open_logout := unfold logout.
Ltac open_build := unfold build_datasources_csv.
Ltac open_sites_request := unfold sites_request in *.

Section Frame.

Variable py_repr : json -> string.
Variables TABLEAU_SERVER_URL API_VERSION USERNAME PASSWORD : string.
Variable S : Type.
Variable serve : S -> request -> S * response.

(** A relation between the world before and the world after, which holds
    across printing and across the delivery of the requests in [Q]. *)
Variable R : world S -> world S -> Prop.
Variable Q : request -> Prop.
Hypothesis R_refl : forall w, R w w.
Hypothesis R_trans : forall a b c, R a b -> R b c -> R a c.
Hypothesis R_print : forall w line, R w (printed w line).
Hypothesis R_send : forall w req, Q req -> R w (deliver serve w req).

#[local] Existing Instances M_ret M_bind.

Lemma kept_ret {A} (a : A) : kept R (mret a : M S A).
Proof. intros w. apply R_refl. Qed.

Lemma kept_lift {A} (r : result A) : kept R (lift r : M S A).
Proof. intros w. apply R_refl. Qed.

Lemma kept_print line : kept R (print line : M S unit).
Proof. intros w. apply R_print. Qed.

Lemma kept_read_csv path : kept R (read_csv path : M S csv_file).
Proof.
  intros w. unfold read_csv. destruct (files w !! path); apply R_refl.
Qed.

Lemma kept_send req : Q req -> kept R (send serve req).
Proof.
  intros HQ w. unfold send. destruct (forallb _ _); simpl; auto.
Qed.

Lemma kept_bind {A B} (m : M S A) (k : A -> M S B) :
  kept R m -> (forall a, kept R (k a)) -> kept R (m ≫= k).
Proof.
  intros Hm Hk w. unfold mbind, M_bind. specialize (Hm w).
  destruct (m w) as [[a|e] w1]; simpl in *; [|exact Hm].
  exact (R_trans _ _ _ Hm (Hk a w1)).
Qed.

Lemma kept_foldM {A B} (f : B -> A -> M S B) (l : list A) :
  (forall b a, kept R (f b a)) -> forall b, kept R (foldM S f l b).
Proof.
  intros Hf. induction l as [|a l IH]; intros b; simpl.
  - apply kept_ret.
  - apply kept_bind; auto.
Qed.

Lemma kept_get_api_token username password contentUrl :
  Q (signin_request TABLEAU_SERVER_URL API_VERSION username password contentUrl) ->
  kept R (get_api_token TABLEAU_SERVER_URL API_VERSION S serve
                        username password contentUrl).
Proof.
  intros HQ. open_get_api_token. apply kept_bind.
  - by apply kept_send.
  - intros r. apply kept_lift.
Qed.

Lemma kept_logout token :
  Q (signout_request TABLEAU_SERVER_URL API_VERSION token) ->
  kept R (logout TABLEAU_SERVER_URL API_VERSION S serve token).
Proof.
  intros HQ. open_logout. apply kept_bind.
  - by apply kept_send.
  - intros r. apply kept_ret.
Qed.

Lemma kept_get_sites token :
  Q (sites_request TABLEAU_SERVER_URL API_VERSION token) ->
  kept R (get_sites TABLEAU_SERVER_URL API_VERSION S serve token).
Proof.
  intros HQ. open_get_sites. apply kept_bind.
  - by apply kept_send.
  - intros r. apply kept_lift.
Qed.

Lemma kept_update :
  (forall req, update_request TABLEAU_SERVER_URL API_VERSION USERNAME PASSWORD
                              req -> Q req) ->
  forall path,
    kept R (update_datasources_from_csv py_repr TABLEAU_SERVER_URL API_VERSION
              USERNAME PASSWORD S serve path).
Proof.
  intros HQ path. open_update_datasources.
  apply kept_bind; [apply kept_read_csv|intros f].
  apply kept_bind; [apply kept_print|intros _].
  apply kept_bind; [apply kept_lift|intros updates].
  open_push_updates. unfold for_each. apply kept_foldM.
  intros _ [site_content_url site_data]. open_update_site.
  apply kept_bind; [apply kept_print|intros _].
  apply kept_bind;
    [apply kept_get_api_token, HQ; constructor|intros token].
  unfold for_each. apply kept_foldM. intros _ [datasource_id datasource_data].
  apply kept_foldM. intros _ connection. open_update_connection.
  apply kept_bind.
  - apply kept_send, HQ.
    apply (update_put _ _ _ _ site_data token datasource_id connection).
  - intros r. repeat (apply kept_bind; [apply kept_lift|intros ?]).
    apply kept_print.
Qed.

Lemma kept_build save_as :
  (forall req, export_request py_repr TABLEAU_SERVER_URL API_VERSION
                              USERNAME PASSWORD req -> Q req) ->
  (forall w f, R w (snd (write_csv save_as f w))) ->
  kept R (build_datasources_csv py_repr TABLEAU_SERVER_URL API_VERSION
            USERNAME PASSWORD S serve save_as).
Proof.
  intros HQ Hwrite. open_build.
  apply kept_bind; [apply kept_get_api_token, HQ; constructor|intros token].
  apply kept_bind; [apply kept_print|intros _].
  apply kept_bind; [apply kept_get_sites, HQ; constructor|intros sites].
  apply kept_bind; [apply kept_logout, HQ; constructor|intros _].
  apply kept_bind.
  { apply kept_foldM. intros datasources [site_id site_data]. open_walk_site.
    apply kept_bind; [apply kept_print|intros _].
    apply kept_bind; [apply kept_get_api_token, HQ; constructor|intros t].
    apply kept_bind.
    { apply kept_send, HQ.
      apply (export_datasources _ _ _ _ _ site_id t). }
    intros r.
    apply kept_bind; [apply kept_lift|intros j].
    apply kept_bind; [apply kept_lift|intros listing].
    apply kept_bind; [apply kept_lift|intros present].
    apply kept_bind.
    { destruct present; [|apply kept_ret].
      apply kept_bind; [apply kept_lift|intros sources].
      apply kept_bind; [apply kept_lift|intros items].
      apply kept_foldM. intros acc source. open_walk_source.
      apply kept_bind; [apply kept_lift|intros source_id].
      apply kept_bind.
      { apply kept_send, HQ.
        apply (export_connections _ _ _ _ _ site_id source_id t). }
      intros r'.
      apply kept_bind; [apply kept_lift|intros j'].
      apply kept_bind; [apply kept_lift|intros listing'].
      apply kept_bind; [apply kept_lift|intros present'].
      destruct present'; [|apply kept_ret].
      apply kept_bind; [apply kept_lift|intros connections].
      apply kept_bind; [apply kept_lift|intros items'].
      apply kept_lift. }
    intros acc. apply kept_bind; [apply kept_logout, HQ; constructor|intros _].
    apply kept_ret. }
  intros datasources.
  apply kept_bind; [apply kept_print|intros _].
  apply kept_bind; [intros w; apply Hwrite|intros _].
  apply kept_print.
Qed.

End Frame.

Section Shapes.

Variable py_repr : json -> string.
Variables TABLEAU_SERVER_URL API_VERSION USERNAME PASSWORD : string.
Variable S : Type.
Variable serve : S -> request -> S * response.

Lemma sent_more_refl P (w : world S) : sent_more P w w.
Proof. exists []. by rewrite app_nil_r. Qed.

Lemma sent_more_trans P (a b c : world S) :
  sent_more P a b -> sent_more P b c -> sent_more P a c.
Proof.
  intros (l1 & E1 & F1) (l2 & E2 & F2). exists (l1 ++ l2).
  rewrite E2, E1, app_assoc. split; [done|]. by apply Forall_app.
Qed.

Lemma sent_more_print P (w : world S) line : sent_more P w (printed w line).
Proof. exists []. unfold printed. simpl. by rewrite app_nil_r. Qed.

Lemma sent_more_send (P : request -> Prop) (w : world S) req :
  P req -> sent_more P w (deliver serve w req).
Proof. intros HP. exists [req]. auto. Qed.

Lemma sent_more_write P (w : world S) path f :
  sent_more P w (snd (write_csv path f w)).
Proof. exists []. simpl. by rewrite app_nil_r. Qed.

Lemma export_request_reads req :
  export_request py_repr TABLEAU_SERVER_URL API_VERSION USERNAME PASSWORD req ->
  meth req <> PUT.
Proof. intros []; discriminate. Qed.

Lemma update_request_writes req :
  update_request TABLEAU_SERVER_URL API_VERSION USERNAME PASSWORD req ->
  meth req <> GET /\ payload req <> None.
Proof. intros []; split; discriminate. Qed.

Lemma get_request_headers_json token :
  assoc "Content-Type" (get_request_headers token)
  = Some (JStr "application/json") /\
  assoc "Accept" (get_request_headers token) = Some (JStr "application/json").
Proof. destruct token; split; reflexivity. Qed.

(** The export only reads: whatever the server answers and however the run
    ends, each request that [build_datasources_csv] sends is a sign-in
    with the configured user, a sign-out, or the GET of the site, data
    source or connection listing; none is a PUT. *)
Theorem export_sends_only_listings (save_as : string) (w : world S) :
  exists new,
    sent (snd (build_datasources_csv py_repr TABLEAU_SERVER_URL API_VERSION
                 USERNAME PASSWORD S serve save_as w)) = sent w ++ new /\
    Forall (export_request py_repr TABLEAU_SERVER_URL API_VERSION
                           USERNAME PASSWORD) new /\
    Forall (fun req => meth req <> PUT) new.
Proof.
  destruct (kept_build py_repr TABLEAU_SERVER_URL API_VERSION USERNAME
              PASSWORD S serve
              (sent_more (export_request py_repr TABLEAU_SERVER_URL
                            API_VERSION USERNAME PASSWORD))
              (export_request py_repr TABLEAU_SERVER_URL API_VERSION
                              USERNAME PASSWORD)
              (sent_more_refl _) (sent_more_trans _) (sent_more_print _)
              (sent_more_send _) save_as (fun _ H => H)
              (fun w f => sent_more_write _ w save_as f) w)
    as (new & E & F).
  exists new. split; [exact E|]. split; [exact F|].
  eapply Forall_impl; [exact F|]. apply export_request_reads.
Qed.

(** The update only signs in and writes: whatever the server answers and
    however the run ends, each request that [update_datasources_from_csv]
    sends is a sign-in with the configured user or the PUT of one
    connection, whose body is [{"connection": {"userName", "password",
    "embedPassword": true}}]; none is a GET and each carries a payload. *)
Theorem update_sends_only_signins_and_puts (path : string) (w : world S) :
  exists new,
    sent (snd (update_datasources_from_csv py_repr TABLEAU_SERVER_URL
                 API_VERSION USERNAME PASSWORD S serve path w))
    = sent w ++ new /\
    Forall (update_request TABLEAU_SERVER_URL API_VERSION USERNAME PASSWORD)
           new /\
    Forall (fun req => meth req <> GET /\ payload req <> None) new.
Proof.
  destruct (kept_update py_repr TABLEAU_SERVER_URL API_VERSION USERNAME
              PASSWORD S serve
              (sent_more (update_request TABLEAU_SERVER_URL API_VERSION
                            USERNAME PASSWORD))
              (update_request TABLEAU_SERVER_URL API_VERSION USERNAME PASSWORD)
              (sent_more_refl _) (sent_more_trans _) (sent_more_print _)
              (sent_more_send _) (fun _ H => H) path w)
    as (new & E & F).
  exists new. split; [exact E|]. split; [exact F|].
  eapply Forall_impl; [exact F|]. apply update_request_writes.
Qed.

(** Every request of either run carries the two JSON headers that
    [get_request_headers] builds: [Content-Type] and [Accept], both
    [application/json]. *)
Theorem every_request_has_json_headers (path : string) (w : world S) :
  sent_more json_headers w
    (snd (build_datasources_csv py_repr TABLEAU_SERVER_URL API_VERSION
            USERNAME PASSWORD S serve path w)) /\
  sent_more json_headers w
    (snd (update_datasources_from_csv py_repr TABLEAU_SERVER_URL API_VERSION
            USERNAME PASSWORD S serve path w)).
Proof.
  split.
  - apply (kept_build py_repr TABLEAU_SERVER_URL API_VERSION USERNAME
             PASSWORD S serve (sent_more json_headers) json_headers
             (sent_more_refl _) (sent_more_trans _) (sent_more_print _)
             (sent_more_send _) path).
    + intros req []; apply get_request_headers_json.
    + intros w0 f. apply sent_more_write.
  - apply (kept_update py_repr TABLEAU_SERVER_URL API_VERSION USERNAME
             PASSWORD S serve (sent_more json_headers) json_headers
             (sent_more_refl _) (sent_more_trans _) (sent_more_print _)
             (sent_more_send _)).
    intros req []; apply get_request_headers_json.
Qed.

(** The update never writes a file, and the export changes no file but
    the one it is asked to write, however the runs end. *)
Theorem runs_leave_other_files_alone (path : string) (w : world S) :
  files (snd (update_datasources_from_csv py_repr TABLEAU_SERVER_URL
                API_VERSION USERNAME PASSWORD S serve path w)) = files w /\
  (forall other, other <> path ->
     files (snd (build_datasources_csv py_repr TABLEAU_SERVER_URL API_VERSION
                   USERNAME PASSWORD S serve path w)) !! other
     = files w !! other).
Proof.
  split.
  - apply (kept_update py_repr TABLEAU_SERVER_URL API_VERSION USERNAME
             PASSWORD S serve (fun a b => files b = files a)
             (fun _ => True)); auto.
    intros a b c Hab Hbc. by rewrite Hbc.
  - intros other Hne.
    apply (kept_build py_repr TABLEAU_SERVER_URL API_VERSION USERNAME
             PASSWORD S serve
             (fun a b => files b !! other = files a !! other)
             (fun _ => True)); auto.
    + intros a b c Hab Hbc. by rewrite Hbc.
    + intros w0 f. simpl. by apply lookup_insert_ne.
Qed.

End Shapes.

(** ** More on the plan that the reader builds *)

Lemma add_row_filled updates row updates' :
  plan_filled updates = true ->
  add_row updates row = Ok updates' ->
  plan_filled updates' = true.
Proof.
  set (dd_ok := fun dd : datasource_entry =>
                  forallb connection_filled (connections dd)).
  set (sd_ok := fun sd : site_entry =>
                  forallb (fun e : cell * datasource_entry => dd_ok (snd e))
                          (datasources sd)).
  change (forallb (fun e : cell * site_entry => sd_ok (snd e)) updates = true ->
          add_row updates row = Ok updates' ->
          forallb (fun e : cell * site_entry => sd_ok (snd e)) updates' = true).
  intros Hready. unfold add_row. unfold_result.
  destruct (not_provided row "updated_username") as [[|]|] eqn:Eu;
    try discriminate.
  destruct (not_provided row "updated_password") as [[|]|] eqn:Ep;
    try discriminate.
  apply provided_nonempty in Eu as (u & Eu & Hu).
  apply provided_nonempty in Ep as (p & Ep & Hp). rewrite Eu, Ep.
  destruct (row_get row "site_content_url") as [site|]; try discriminate.
  match goal with
  | |- context [match ?first with Ok _ => _ | Raise _ => _ end = _] =>
      destruct first as [updates1|] eqn:E1; try discriminate
  end.
  assert (H1 : forallb (fun e : cell * site_entry => sd_ok (snd e)) updates1
               = true).
  { destruct (od_mem cell_eqb site updates); [by injection E1 as <-|].
    destruct (row_get row "site_id"); try discriminate.
    destruct (row_get row "site_name"); try discriminate.
    injection E1 as <-. by apply forallb_od_set. }
  destruct (row_get row "datasource_id") as [ds|]; try discriminate.
  unfold od_lookup.
  destruct (od_get cell_eqb site updates1) as [site_data|] eqn:Es;
    try discriminate.
  pose proof (forallb_od_get sd_ok _ _ _ H1 Es) as Hsd.
  match goal with
  | |- context [match ?second with Ok _ => _ | Raise _ => _ end = _] =>
      destruct second as [dss|] eqn:E2; try discriminate
  end.
  assert (H2 : forallb (fun e : cell * datasource_entry => dd_ok (snd e)) dss
               = true).
  { destruct (od_mem cell_eqb ds (datasources site_data));
      [by injection E2 as <-|].
    destruct (row_get row "datasource_name"); try discriminate.
    injection E2 as <-. by apply forallb_od_set. }
  destruct (od_get cell_eqb ds dss) as [datasource_data|] eqn:Ed;
    try discriminate.
  pose proof (forallb_od_get dd_ok _ _ _ H2 Ed) as Hdd.
  destruct (row_get row "connection_id"); try discriminate.
  intros E. injection E as <-.
  apply forallb_od_set; [assumption|].
  unfold sd_ok. simpl. apply forallb_od_set; [assumption|].
  unfold dd_ok in *. simpl. rewrite forallb_app, Hdd. simpl.
  unfold connection_filled. simpl. by rewrite Hu, Hp.
Qed.

Lemma collect_filled rows : forall updates updates',
  plan_filled updates = true ->
  foldR add_row rows updates = Ok updates' ->
  plan_filled updates' = true.
Proof.
  induction rows as [|r rows IH]; intros updates updates' Hready; simpl.
  - intros E. by injection E as <-.
  - unfold_result. destruct (add_row updates r) as [u1|] eqn:E1;
      [|discriminate].
    apply IH. by apply (add_row_filled updates r).
Qed.

Lemma forallb_In {A} (f : A -> bool) (l : list A) x :
  forallb f l = true -> In x l -> f x = true.
Proof. rewrite List.forallb_forall. auto. Qed.

(** Whatever the rows are, when the reader's loop ends without an
    exception, every connection update of the plan has a non-empty string
    for its username and for its password, so the first and the last
    character that the log shows exist and [redact] cannot fail. *)
Theorem collected_credentials_filled (rows : list (gmap string cell))
    (updates : update_plan) :
  collect_updates rows = Ok updates ->
  forall k site_data d datasource_data c,
    In (k, site_data) updates ->
    In (d, datasource_data) (datasources site_data) ->
    In c (connections datasource_data) ->
    (exists a u, username c = Some (String a u)) /\
    (exists b p, password c = Some (String b p)) /\
    (exists shown, redact (password c) = Ok shown).
Proof.
  intros Hrun k sd d dd c Hk Hd Hc.
  pose proof (collect_filled rows [] updates eq_refl Hrun) as H.
  unfold plan_filled in H.
  pose proof (forallb_In _ _ _ H Hk) as Hsd. simpl in Hsd.
  pose proof (forallb_In _ _ _ Hsd Hd) as Hdd. simpl in Hdd.
  pose proof (forallb_In _ _ _ Hdd Hc) as Hcc.
  unfold connection_filled in Hcc. apply andb_true_iff in Hcc as [Hu Hp].
  destruct (username c) as [[|a u]|]; try discriminate.
  destruct (password c) as [[|b p]|]; try discriminate.
  repeat split; eauto.
Qed.

Lemma od_mem_existsb {V} k (d : list (cell * V)) :
  od_mem cell_eqb k d = existsb (cell_eqb k) (map fst d).
Proof.
  unfold od_mem. induction d as [|[k' v] d IH]; simpl; [done|].
  destruct (cell_eqb k k'); simpl; [done|exact IH].
Qed.

Lemma od_set_keys {V} k (v : V) (d : list (cell * V)) :
  map fst (od_set cell_eqb k v d) =
  if existsb (cell_eqb k) (map fst d) then map fst d else map fst d ++ [k].
Proof.
  induction d as [|[k' v'] d IH]; simpl; [done|].
  destruct (cell_eqb k k'); simpl; [done|].
  rewrite IH. by destruct (existsb _ _).
Qed.

Lemma site_keys_fold rows : forall updates,
  map fst (fold_left merge_row rows updates) =
  fold_left (fun seen k => if existsb (cell_eqb k) seen then seen
                           else seen ++ [k])
            (map (fun r => col r "site_content_url") rows) (map fst updates).
Proof.
  induction rows as [|r rows IH]; intros updates; simpl; [done|].
  rewrite IH. f_equal. unfold merge_row. apply od_set_keys.
Qed.

Lemma datasource_keys_fold rows k : forall updates,
  map fst (datasources_of (fold_left merge_row rows updates) k) =
  fold_left (fun seen d => if existsb (cell_eqb d) seen then seen
                           else seen ++ [d])
            (map (fun r => col r "datasource_id")
                 (List.filter (of_site k) rows))
            (map fst (datasources_of updates k)).
Proof.
  induction rows as [|r rows IH]; intros updates; simpl; [done|].
  rewrite IH, datasources_of_merge. unfold of_site.
  destruct (cell_eqb (col r "site_content_url") k) eqn:E; [|done].
  apply cell_eqb_eq in E. subst k. simpl. f_equal. apply od_set_keys.
Qed.

(** In the plan of a file of valid rows the sites stand in the order in
    which the file first names them, and so do the data sources of each
    site: this is the order in which the update loop visits them. *)
Theorem plan_order_is_first_appearance (rows : list (gmap string cell)) :
  forallb valid_row rows = true ->
  exists updates,
    collect_updates rows = Ok updates /\
    map fst updates
    = first_seen (map (fun r => col r "site_content_url") rows) /\
    forall k,
      map fst (datasources_of updates k)
      = first_seen (map (fun r => col r "datasource_id")
                        (List.filter (of_site k) rows)).
Proof.
  intros Hv. exists (fold_left merge_row rows []).
  split; [by apply collect_from_valid|]. split.
  - apply (site_keys_fold rows []).
  - intros k. apply (datasource_keys_fold rows k []).
Qed.

Lemma row_get_agree (r r' : gmap string cell) k :
  r !! k = r' !! k -> row_get r k = row_get r' k.
Proof. unfold row_get. by intros ->. Qed.

Lemma not_provided_agree (r r' : gmap string cell) k :
  r !! k = r' !! k -> not_provided r k = not_provided r' k.
Proof. unfold not_provided, row_get. by intros ->. Qed.

Lemma add_row_agree updates (r r' : gmap string cell) :
  (forall k, In k read_columns -> r !! k = r' !! k) ->
  add_row updates r = add_row updates r'.
Proof.
  intros H. unfold add_row.
  rewrite (not_provided_agree r r' "updated_username"),
          (not_provided_agree r r' "updated_password"),
          (row_get_agree r r' "site_content_url"),
          (row_get_agree r r' "site_id"),
          (row_get_agree r r' "site_name"),
          (row_get_agree r r' "datasource_id"),
          (row_get_agree r r' "datasource_name"),
          (row_get_agree r r' "connection_id"),
          (row_get_agree r r' "updated_username"),
          (row_get_agree r r' "updated_password");
    try (apply H; simpl; tauto).
  reflexivity.
Qed.

(** The reader looks at eight columns only. Two files whose rows agree,
    row by row, on the two credential columns and on [site_content_url],
    [site_id], [site_name], [datasource_id], [datasource_name] and
    [connection_id], give the same plan or the same exception, whatever
    their other columns hold. *)
Theorem reader_reads_eight_columns (rows rows' : list (gmap string cell)) :
  Forall2 (fun r r' : gmap string cell =>
             forall k, In k read_columns -> r !! k = r' !! k) rows rows' ->
  collect_updates rows = collect_updates rows'.
Proof.
  unfold collect_updates. generalize (@nil (cell * site_entry)).
  intros updates H. revert updates.
  induction H as [|r r' rows rows' Hr _ IH]; intros updates; simpl; [done|].
  unfold_result. rewrite (add_row_agree updates r r' Hr).
  destruct (add_row updates r'); [apply IH|reflexivity].
Qed.

(** ** Runs that an exception ends *)

Section Outcomes.

Variable py_repr : json -> string.
Variables TABLEAU_SERVER_URL API_VERSION USERNAME PASSWORD : string.
Variable S : Type.
Variable serve : S -> request -> S * response.

Local Abbreviation get_api_token :=
  (get_api_token TABLEAU_SERVER_URL API_VERSION S serve).
Local Abbreviation update_connection :=
  (update_connection py_repr TABLEAU_SERVER_URL API_VERSION S serve).
Local Abbreviation update_site :=
  (update_site py_repr TABLEAU_SERVER_URL API_VERSION USERNAME PASSWORD S serve).
Local Abbreviation push_updates :=
  (push_updates py_repr TABLEAU_SERVER_URL API_VERSION USERNAME PASSWORD S serve).
Local Abbreviation update_datasources_from_csv :=
  (update_datasources_from_csv py_repr TABLEAU_SERVER_URL API_VERSION
                               USERNAME PASSWORD S serve).
Local Abbreviation build_datasources_csv :=
  (build_datasources_csv py_repr TABLEAU_SERVER_URL API_VERSION
                         USERNAME PASSWORD S serve).
Local Abbreviation get_sites :=
  (get_sites TABLEAU_SERVER_URL API_VERSION S serve).
Local Abbreviation logout := (logout TABLEAU_SERVER_URL API_VERSION S serve).
Local Abbreviation walk_source :=
  (walk_source py_repr TABLEAU_SERVER_URL API_VERSION S serve).
Local Abbreviation walk_site :=
  (walk_site py_repr TABLEAU_SERVER_URL API_VERSION USERNAME PASSWORD S serve).
Local Abbreviation signin_request :=
  (signin_request TABLEAU_SERVER_URL API_VERSION).
Local Abbreviation signout_request :=
  (signout_request TABLEAU_SERVER_URL API_VERSION).
Local Abbreviation put_request := (put_request TABLEAU_SERVER_URL API_VERSION).
Local Abbreviation sites_request :=
  (sites_request TABLEAU_SERVER_URL API_VERSION).
Local Abbreviation datasources_request :=
  (datasources_request py_repr TABLEAU_SERVER_URL API_VERSION).
Local Abbreviation connections_request :=
  (connections_request py_repr TABLEAU_SERVER_URL API_VERSION).

#[local] Existing Instances M_ret M_bind.

Lemma foldM_app {A B} (f : B -> A -> M S B) l1 l2 : forall b (w : world S),
  foldM S f (l1 ++ l2) b w =
  match foldM S f l1 b w with
  | (Ok b', w') => foldM S f l2 b' w'
  | (Raise e, w') => (Raise e, w')
  end.
Proof.
  induction l1 as [|a l1 IH]; intros b w; simpl; [done|].
  unfold mbind, M_bind. destruct (f b a w) as [[b'|e] w']; [apply IH|done].
Qed.

(** A sign-in that fails ends the update run. When the sites before
    [site] were pushed without an exception and the answer to the sign-in
    for [site] has no token to subscript, the run ends with that
    exception right after the sign-in request: nothing is sent for [site]
    or for any site after it, and what was pushed before stays pushed. *)
Theorem sign_in_failure_stops_updates
    (pre post : update_plan) (site : cell * site_entry)
    (w w1 : world S) (e : exn) :
  let line := nl +:+ "Updating connections for site "
              +:+ cell_str (site_name (snd site)) +:+ nl
              +:+ "-------------------------------------------------" in
  let signin := signin_request USERNAME PASSWORD (json_of_cell (fst site)) in
  push_updates pre w = (Ok tt, w1) ->
  token_of (answer serve (printed w1 line) signin) = Raise e ->
  push_updates (pre ++ site :: post) w
  = (Raise e, deliver serve (printed w1 line) signin).
Proof.
  intros line signin Hpre Hfail. revert Hpre. open_push_updates.
  unfold for_each. intros Hpre. rewrite foldM_app, Hpre.
  destruct site as [site_content_url site_data]. simpl in *.
  unfold mbind at 1. unfold M_bind at 1. open_update_site.
  unfold mbind at 1. unfold M_bind at 1. unfold print. fold line.
  unfold mbind at 1. unfold M_bind at 1.
  rewrite get_api_token_run. fold signin. by rewrite Hfail.
Qed.

(** An answer to an update that cannot be searched for a [connection] key
    ends the run, after the request was delivered and before anything is
    printed for it: a body that is no JSON document gives JSONDecodeError,
    a JSON [null], number or boolean gives TypeError. The connections
    after it are not attempted. *)
Theorem unreadable_answer_stops_updates site_data t datasource_id
    datasource_data connection rest (w : world S) :
  let put := put_request site_data (JStr t) datasource_id connection in
  nonempty (password connection) = true ->
  (body (answer serve w put) = None ->
   for_each S (connection :: rest)
     (update_connection site_data (JStr t) datasource_id datasource_data) w
   = (Raise JSONDecodeError, deliver serve w put)) /\
  (forall j, body (answer serve w put) = Some j ->
     match j with JNull | JBool _ | JNum _ => True | _ => False end ->
     for_each S (connection :: rest)
       (update_connection site_data (JStr t) datasource_id datasource_data) w
     = (Raise TypeError, deliver serve w put)).
Proof.
  intros put Hp. split.
  - intros Hb. unfold for_each. rewrite foldM_cons.
    open_update_connection. open_requests. unfold_M. simpl in *.
    destruct (password connection) as [[|a p]|]; try discriminate.
    unfold redact, resp_json. simpl. unfold put in Hb. simpl in Hb.
    by rewrite Hb.
  - intros j Hb Hj. unfold for_each. rewrite foldM_cons.
    destruct (update_connection_run py_repr TABLEAU_SERVER_URL API_VERSION
                S serve site_data t datasource_id datasource_data
                connection w j Hp Hb) as (redacted & _ & Hrun).
    rewrite Hrun. by destruct j.
Qed.

(** The export has no [finally]: when the sign-in for a site succeeded and
    the answer to its data source listing has no [datasources] key (an
    error document, say), the turn of the site loop ends with the
    exception of the subscript, the listing is the last request sent, and
    the site token is not signed out; the loop over the sites ends there. *)
Theorem failed_listing_leaves_session_open
    datasources site_id site_data rest (w : world S) t j e :
  let w0 := printed w ("Getting datasources for "
                       +:+ py_str py_repr (name site_data) +:+ " site...") in
  let signin := signin_request USERNAME PASSWORD (contentUrl site_data) in
  let listing := datasources_request site_id (JStr t) in
  token_of (answer serve w0 signin) = Ok (JStr t) ->
  body (answer serve (deliver serve w0 signin) listing) = Some j ->
  py_getitem j "datasources" = Raise e ->
  foldM S walk_site ((site_id, site_data) :: rest) datasources w
  = (Raise e, deliver serve (deliver serve w0 signin) listing) /\
  sent (deliver serve (deliver serve w0 signin) listing)
  = sent w ++ [signin; listing].
Proof.
  intros w0 signin listing Ht Hb Hj. split.
  - assert (Hrun : walk_site datasources (site_id, site_data) w
                   = (Raise e, deliver serve (deliver serve w0 signin) listing)).
    { open_walk_site.
      unfold mbind at 1. unfold M_bind at 1. unfold print. fold w0.
      unfold mbind at 1. unfold M_bind at 1.
      rewrite get_api_token_run. fold signin. rewrite Ht.
      unfold mbind at 1. unfold M_bind at 1.
      unfold requests_get, send. change (forallb _ _) with true. cbv iota.
      fold (datasources_request site_id (JStr t)). fold listing.
      unfold mbind, M_bind, lift, resp_json. by rewrite Hb, Hj. }
    by rewrite foldM_cons, Hrun.
  - unfold deliver, w0, printed. simpl. by rewrite <- app_assoc.
Qed.

(** ** Runs of the export that end well *)

Lemma add_connections_ok site_id site_data source items :
  forall acc acc',
  foldR (add_connection site_id site_data source) items acc = Ok acc' ->
  exists new, acc' = acc ++ new /\
              Forall (record_of_site site_id site_data) new.
Proof.
  induction items as [|c items IH]; intros acc acc' H; simpl in H.
  - injection H as <-. exists []. by rewrite app_nil_r.
  - unfold_result.
    destruct (add_connection site_id site_data source acc c) as [acc1|] eqn:E;
      [|discriminate].
    destruct (IH _ _ H) as (new & -> & Hnew).
    unfold add_connection in E. unfold_result.
    repeat match type of E with
    | context [match ?x with _ => _ end] => destruct x; try discriminate E
    end.
    injection E as <-. eexists (_ :: new). rewrite <- app_assoc. simpl.
    split; [reflexivity|]. constructor; [|exact Hnew].
    repeat split.
Qed.

Lemma filter_gets (gets : list request) :
  Forall (fun r => is_get r = true) gets ->
  List.filter is_signin gets = [] /\ List.filter is_signout gets = [].
Proof.
  induction 1 as [|r gets Hr _ [IH1 IH2]]; simpl; [done|].
  unfold is_get in Hr. unfold is_signin, is_signout.
  destruct (meth r); try discriminate. auto.
Qed.

Lemma walk_source_step site_id site_data token acc source (w : world S) r w' :
  walk_source site_id site_data token acc source w = (r, w') ->
  exists gets,
    sent w' = sent w ++ gets /\ Forall (fun q => is_get q = true) gets /\
    files w' = files w /\ stdout w' = stdout w /\
    forall acc', r = Ok acc' ->
      exists new, acc' = acc ++ new /\
                  Forall (record_of_site site_id site_data) new.
Proof.
  revert r w'. open_walk_source. unfold_M. unfold send. intros r w' H.
  destruct (py_getitem source "id") as [source_id|]; simpl in H.
  2:{ injection H as <- <-. exists []. rewrite app_nil_r.
      repeat split; auto. discriminate. }
  destruct (forallb _ _); simpl in H.
  2:{ injection H as <- <-. exists []. rewrite app_nil_r.
      repeat split; auto. discriminate. }
  match type of H with
  | context [deliver serve w ?q] => set (req := q) in *
  end.
  assert (Hshape : sent (deliver serve w req) = sent w ++ [req] /\
                   Forall (fun q => is_get q = true) [req] /\
                   files (deliver serve w req) = files w /\
                   stdout (deliver serve w req) = stdout w)
    by (repeat split; auto).
  destruct Hshape as (Hs & Hg & Hf & Ho).
  repeat match type of H with
  | context [match ?x with _ => _ end] =>
      destruct x eqn:?; simpl in H;
      try (injection H as <- <-; exists [req]; repeat split; auto;
           discriminate)
  end.
  - apply pair_equal_spec in H as [<- <-]. exists [req].
    repeat split; auto. intros acc' E.
    eapply add_connections_ok. eassumption.
  - apply pair_equal_spec in H as [<- <-]. exists [req].
    repeat split; auto.
    intros acc' E. injection E as <-. exists []. by rewrite app_nil_r.
Qed.

Lemma walk_sources_ok site_id site_data token items :
  forall acc (w : world S) r w',
  foldM S (walk_source site_id site_data token) items acc w = (r, w') ->
  exists gets,
    sent w' = sent w ++ gets /\ Forall (fun q => is_get q = true) gets /\
    files w' = files w /\ stdout w' = stdout w /\
    forall acc', r = Ok acc' ->
      exists new, acc' = acc ++ new /\
                  Forall (record_of_site site_id site_data) new.
Proof.
  induction items as [|source items IH]; intros acc w r w' H.
  - apply pair_equal_spec in H as [<- <-]. exists []. rewrite app_nil_r.
    repeat split; auto. intros acc' E. injection E as <-.
    exists []. by rewrite app_nil_r.
  - rewrite foldM_cons in H.
    destruct (walk_source site_id site_data token acc source w)
      as [r1 w1] eqn:E1.
    destruct (walk_source_step _ _ _ _ _ _ _ _ E1)
      as (g1 & Hs1 & Hg1 & Hf1 & Ho1 & Hacc1).
    destruct r1 as [acc1|e].
    + destruct (IH _ _ _ _ H) as (g2 & Hs2 & Hg2 & Hf2 & Ho2 & Hacc2).
      exists (g1 ++ g2). rewrite Hs2, Hs1, Hf2, Hf1, Ho2, Ho1, app_assoc.
      split; [done|]. split; [by apply Forall_app|].
      split; [done|]. split; [done|].
      intros acc' E. destruct (Hacc1 _ eq_refl) as (n1 & -> & Hn1).
      destruct (Hacc2 _ E) as (n2 & -> & Hn2).
      exists (n1 ++ n2). rewrite app_assoc. split; [done|].
      by apply Forall_app.
    + apply pair_equal_spec in H as [<- <-]. exists g1.
      repeat split; auto; discriminate.
Qed.

(** A turn of the site loop that ends well. *)
Lemma walk_site_ok acc site_id site_data (w : world S) acc' w' :
  walk_site acc (site_id, site_data) w = (Ok acc', w') ->
  exists token gets new,
    sent w' = sent w
              ++ signin_request USERNAME PASSWORD (contentUrl site_data)
              :: gets ++ [signout_request token] /\
    Forall (fun q => is_get q = true) gets /\
    files w' = files w /\
    acc' = acc ++ new /\ Forall (record_of_site site_id site_data) new.
Proof.
  open_walk_site. unfold mbind at 1. unfold M_bind at 1. unfold print.
  set (w0 := printed w _).
  unfold mbind at 1. unfold M_bind at 1. rewrite get_api_token_run.
  set (signin := signin_request USERNAME PASSWORD (contentUrl site_data)).
  destruct (token_of (answer serve w0 signin)) as [token|]; [|discriminate].
  set (w1 := deliver serve w0 signin).
  unfold mbind at 1. unfold M_bind at 1. unfold requests_get, send.
  destruct (forallb _ _) eqn:Hheaders; [|discriminate].
  set (listing := {| meth := GET |}). set (w2 := deliver serve w1 listing).
  unfold mbind at 1. unfold M_bind at 1. unfold lift at 1.
  destruct (resp_json (answer serve w1 listing)) as [j|]; [|discriminate].
  unfold mbind at 1. unfold M_bind at 1. unfold lift at 1.
  destruct (py_getitem j "datasources") as [found|]; [|discriminate].
  unfold mbind at 1. unfold M_bind at 1. unfold lift at 1.
  destruct (py_contains "datasource" found) as [present|]; [|discriminate].
  unfold mbind at 1. unfold M_bind at 1.
  assert (Hinner : forall r w3,
    (if present
     then sources ← lift (py_getitem found "datasource");
          items ← lift (py_iter sources);
          foldM S (walk_source site_id site_data token) items acc
     else mret acc) w2 = (r, w3) ->
    exists gets,
      sent w3 = sent w2 ++ gets /\ Forall (fun q => is_get q = true) gets /\
      files w3 = files w2 /\
      forall acc1, r = Ok acc1 ->
        exists new, acc1 = acc ++ new /\
                    Forall (record_of_site site_id site_data) new).
  { intros r w3. destruct present.
    - unfold mbind, M_bind, lift.
      destruct (py_getitem found "datasource") as [sources|].
      2:{ intros H. apply pair_equal_spec in H as [<- <-]. exists [].
          rewrite app_nil_r. repeat split; auto. discriminate. }
      destruct (py_iter sources) as [items|].
      2:{ intros H. apply pair_equal_spec in H as [<- <-]. exists [].
          rewrite app_nil_r. repeat split; auto. discriminate. }
      intros H. destruct (walk_sources_ok _ _ _ _ _ _ _ _ H)
        as (gets & Hs & Hg & Hf & _ & Hacc).
      exists gets. auto.
    - intros H. apply pair_equal_spec in H as [<- <-]. exists [].
      rewrite app_nil_r. repeat split; auto.
      intros acc1 E. injection E as <-. exists []. by rewrite app_nil_r. }
  match goal with
  | |- context [match ?m w2 with _ => _ end] =>
      destruct (m w2) as [r w3] eqn:E
  end.
  destruct (Hinner _ _ eq_refl) as (gets & Hs & Hg & Hf & Hacc).
  destruct r as [acc1|]; [|discriminate].
  destruct (Hacc _ eq_refl) as (new & -> & Hnew).
  open_logout. unfold mbind, M_bind, requests_post, send.
  destruct (forallb _ _); [|discriminate]. simpl.
  intros H. apply pair_equal_spec in H as [H1 H2].
  injection H1 as <-. subst w'.
  exists token, (listing :: gets), new.
  split; [|repeat split; auto].
  unfold deliver at 1. simpl. rewrite Hs. unfold w2, w1, w0.
  unfold deliver, printed. simpl.
  rewrite <- !app_assoc. reflexivity.
Qed.

Lemma filter_session gets token contentUrl :
  Forall (fun q => is_get q = true) gets ->
  List.filter is_signin
    (signin_request USERNAME PASSWORD contentUrl
     :: gets ++ [signout_request token])
  = [signin_request USERNAME PASSWORD contentUrl] /\
  List.filter is_signout
    (signin_request USERNAME PASSWORD contentUrl
     :: gets ++ [signout_request token])
  = [signout_request token].
Proof.
  intros Hg. destruct (filter_gets gets Hg) as [H1 H2]. simpl.
  rewrite !List.filter_app, H1, H2. split; reflexivity.
Qed.

Lemma walk_sites_ok sites : forall acc (w : world S) acc' w',
  foldM S walk_site sites acc w = (Ok acc', w') ->
  exists requests new,
    sent w' = sent w ++ requests /\
    length (List.filter is_signin requests) = length sites /\
    length (List.filter is_signout requests) = length sites /\
    files w' = files w /\
    acc' = acc ++ new /\
    Forall (fun r => exists site, In site sites /\
                       record_of_site (fst site) (snd site) r) new.
Proof.
  induction sites as [|[site_id site_data] sites IH]; intros acc w acc' w' H.
  - apply pair_equal_spec in H as [H <-]. injection H as <-.
    exists [], []. rewrite !app_nil_r. repeat split; auto.
  - rewrite foldM_cons in H.
    destruct (walk_site acc (site_id, site_data) w) as [[acc1|e] w1] eqn:E1;
      [|discriminate].
    destruct (walk_site_ok _ _ _ _ _ _ E1)
      as (token & gets & new1 & Hs1 & Hg1 & Hf1 & -> & Hn1).
    destruct (IH _ _ _ _ H)
      as (requests & new2 & Hs2 & Hin2 & Hout2 & Hf2 & -> & Hn2).
    destruct (filter_session gets token (contentUrl site_data) Hg1)
      as [Fin Fout].
    exists ((signin_request USERNAME PASSWORD (contentUrl site_data)
             :: gets ++ [signout_request token]) ++ requests),
           (new1 ++ new2).
    rewrite Hs2, Hs1, Hf2, Hf1.
    split; [by rewrite <- app_assoc|].
    rewrite !List.filter_app, !length_app, Hin2, Hout2, Fin, Fout.
    split; [reflexivity|]. split; [reflexivity|]. split; [reflexivity|].
    split; [by rewrite <- app_assoc|].
    apply Forall_app. split.
    + eapply Forall_impl; [exact Hn1|]. intros r Hr.
      exists (site_id, site_data). split; [by left|exact Hr].
    + eapply Forall_impl; [exact Hn2|]. intros r (site & Hin & Hr).
      exists site. split; [by right|exact Hr].
Qed.

(** The records that the walker collects: each one carries the id, the
    name and the content URL of one of the sites walked, and [None] for
    both new credentials; the records it was given stay in front. *)
Theorem walker_records_belong_to_sites
    (sites : list (json * site_info)) (acc acc' : list ConnectionRecord.t)
    (w w' : world S) :
  foldM S walk_site sites acc w = (Ok acc', w') ->
  exists new,
    acc' = acc ++ new /\
    Forall (fun r => exists site, In site sites /\
                       record_of_site (fst site) (snd site) r) new.
Proof.
  intros H. destruct (walk_sites_ok _ _ _ _ _ H)
    as (requests & new & _ & _ & _ & _ & Hacc & Hnew).
  exists new. auto.
Qed.

(** An export that ends well. *)
Lemma build_ok save_as (w w' : world S) :
  build_datasources_csv save_as w = (Ok tt, w') ->
  exists requests datasources,
    sent w' = sent w ++ requests /\
    length (List.filter is_signin requests)
    = length (List.filter is_signout requests) /\
    files w' = <[save_as := export_csv py_repr datasources]> (files w) /\
    Forall (fun r => ConnectionRecord.updated_username r = JNull /\
                     ConnectionRecord.updated_password r = JNull)
           datasources /\
    last (stdout w')
    = Some ("Wrote " +:+ decimal (Z.of_nat (length datasources))
            +:+ " datasources to " +:+ save_as).
Proof.
  open_build. unfold mbind at 1. unfold M_bind at 1.
  rewrite get_api_token_run.
  set (signin := signin_request USERNAME PASSWORD JNull).
  destruct (token_of (answer serve w signin)) as [token|]; [|discriminate].
  set (w1 := deliver serve w signin).
  unfold mbind at 1. unfold M_bind at 1. unfold print at 1.
  set (w2 := printed w1 _).
  unfold mbind at 1. unfold M_bind at 1. open_get_sites.
  unfold mbind at 1. unfold M_bind at 1. unfold requests_get, send.
  destruct (forallb _ _); [|discriminate].
  set (listing := {| meth := GET |}). set (w3 := deliver serve w2 listing).
  unfold lift at 1.
  match goal with
  | |- context [match ?x with Ok _ => _ | Raise _ => _ end] =>
      destruct x as [sites|]; [|discriminate]
  end.
  unfold mbind at 1. unfold M_bind at 1. open_logout.
  unfold mbind at 1. unfold M_bind at 1. unfold requests_post, send.
  destruct (forallb _ _); [|discriminate].
  set (signout := {| meth := POST |}). set (w4 := deliver serve w3 signout).
  unfold mret at 1. unfold M_ret at 1.
  unfold mbind at 1. unfold M_bind at 1.
  destruct (foldM S walk_site sites [] w4) as [[datasources|e] w5] eqn:E;
    [|discriminate].
  destruct (walk_sites_ok _ _ _ _ _ E)
    as (requests & new & Hs & Hin & Hout & Hf & Hacc & Hnew).
  simpl in Hacc. subst datasources.
  unfold mbind, M_bind, print, write_csv. simpl.
  intros H. apply pair_equal_spec in H as [_ <-].
  exists (signin :: listing :: signout :: requests), new.
  unfold printed. simpl. split; [|split; [|split; [|split]]].
  - rewrite Hs. unfold w4, w3, w2, w1, deliver, printed. simpl.
    by rewrite <- !app_assoc.
  - by rewrite Hin, Hout.
  - rewrite Hf. reflexivity.
  - eapply Forall_impl; [exact Hnew|].
    intros r (site & _ & _ & _ & _ & H1 & H2). auto.
  - apply last_snoc.
Qed.


Lemma write_row_blank (r : ConnectionRecord.t) :
  ConnectionRecord.updated_username r = JNull ->
  ConnectionRecord.updated_password r = JNull ->
  blank_credentials (write_row py_repr r).
Proof.
  intros Hu Hp. unfold blank_credentials, write_row, ConnectionRecord.values.
  simpl. rewrite Hu, Hp. auto.
Qed.

Lemma export_lines_blank (datasources : list ConnectionRecord.t) :
  Forall (fun r => ConnectionRecord.updated_username r = JNull /\
                   ConnectionRecord.updated_password r = JNull) datasources ->
  Forall blank_credentials (map (write_row py_repr) datasources).
Proof.
  induction 1 as [|r l [Hu Hp] _ IH]; simpl; constructor; auto.
  by apply write_row_blank.
Qed.

(** The file of an export that ends well: the header line, then one line
    of thirteen fields per record with both credential fields empty,
    whatever the file held before; and the last line printed reports the
    number of those lines. *)
Theorem export_file_shape (save_as : string) (w w' : world S) :
  build_datasources_csv save_as w = (Ok tt, w') ->
  exists lines,
    files w' !! save_as = Some (header :: lines) /\
    Forall blank_credentials lines /\
    last (stdout w')
    = Some ("Wrote " +:+ decimal (Z.of_nat (length lines))
            +:+ " datasources to " +:+ save_as).
Proof.
  intros H. destruct (build_ok save_as w w' H)
    as (requests & datasources & _ & _ & Hf & Hblank & Hlast).
  exists (map (write_row py_repr) datasources).
  rewrite Hf, lookup_insert_eq, length_map.
  split; [reflexivity|]. split; [by apply export_lines_blank|exact Hlast].
Qed.

Lemma blank_line_row (line : list string) :
  blank_credentials line ->
  line <> [] /\ mk_row header line !! "updated_username" = Some (Some "").
Proof.
  intros (Hlen & Hu & _).
  do 13 (destruct line as [|? line]; [discriminate Hlen|]).
  destruct line; [|discriminate Hlen].
  simpl in Hu. injection Hu as ->. split; [discriminate|].
  vm_compute. reflexivity.
Qed.

Lemma blank_lines_kept (lines : list (list string)) :
  Forall blank_credentials lines ->
  filter (fun l => l <> []) lines = lines.
Proof.
  induction 1 as [|l lines Hl _ IH]; [done|].
  rewrite filter_cons_True by (by apply blank_line_row). by rewrite IH.
Qed.

(** An export cannot be imported as it is. After an export that ends
    well, [update_datasources_from_csv] on the file just written prints
    its first line and, when the file has a record, ends with the
    ValueError that asks for the username, before any request; when the
    file has the header only, it ends well with nothing to do. *)
Theorem unedited_export_is_refused (save_as : string) (w w1 : world S) :
  build_datasources_csv save_as w = (Ok tt, w1) ->
  exists lines,
    files w1 !! save_as = Some (header :: lines) /\
    update_datasources_from_csv save_as w1
    = (match lines with
       | [] => Ok tt
       | _ :: _ => Raise (ValueError username_message)
       end,
       printed w1 ("Collecting data from CSV [" +:+ save_as +:+ "]...")).
Proof.
  intros H. destruct (build_ok save_as w w1 H)
    as (requests & datasources & _ & _ & Hf & Hblank & _).
  apply export_lines_blank in Hblank.
  exists (map (write_row py_repr) datasources).
  assert (Hfile : files w1 !! save_as
                  = Some (header :: map (write_row py_repr) datasources))
    by (by rewrite Hf, lookup_insert_eq).
  split; [exact Hfile|].
  rewrite (update_datasources_run py_repr TABLEAU_SERVER_URL API_VERSION
             USERNAME PASSWORD S serve save_as w1 _ Hfile).
  unfold DictReader. rewrite (blank_lines_kept _ Hblank).
  destruct (map (write_row py_repr) datasources) as [|line lines] eqn:E.
  - reflexivity.
  - apply Forall_cons in Hblank as [Hline _].
    apply blank_line_row in Hline as [_ Hline].
    simpl. unfold collect_updates. simpl. unfold_result.
    by rewrite (add_row_empty_username [] _ Hline).
Qed.

Lemma od_set_fresh (k : string) (v : site_info) (d : list (json * site_info)) :
  Forall (fun e => match fst e with
                   | JStr k' => k' <> k
                   | _ => False
                   end) d ->
  od_set key_eqb (JStr k) v d = d ++ [(JStr k, v)].
Proof.
  induction 1 as [|[k' v'] d Hk _ IH]; simpl; [done|].
  simpl in Hk. destruct k' as [| | |k'| |]; try done.
  simpl. rewrite (proj2 (String.eqb_neq k k')) by congruence.
  by rewrite IH.
Qed.

Lemma add_site_step sites item id n c :
  py_getitem item "id" = Ok (JStr id) ->
  py_getitem item "name" = Ok n ->
  py_getitem item "contentUrl" = Ok c ->
  add_site sites item
  = Ok (od_set key_eqb (JStr id) {| name := n; contentUrl := c |} sites).
Proof.
  intros Hid Hname Hurl. unfold add_site. unfold_result.
  by rewrite Hid, Hname, Hurl.
Qed.

Lemma add_sites_listed items (entries : list (string * json * json)) :
  Forall2 (fun item e =>
             py_getitem item "id" = Ok (JStr (fst (fst e))) /\
             py_getitem item "name" = Ok (snd (fst e)) /\
             py_getitem item "contentUrl" = Ok (snd e)) items entries ->
  forall before,
    NoDup (map (fun e => fst (fst e)) (before ++ entries)) ->
    foldR add_site items
      (map (fun e => (JStr (fst (fst e)),
                      {| name := snd (fst e); contentUrl := snd e |})) before)
    = Ok (map (fun e => (JStr (fst (fst e)),
                         {| name := snd (fst e); contentUrl := snd e |}))
              (before ++ entries)).
Proof.
  induction 1 as [|item e items entries (Hid & Hname & Hurl) _ IH];
    intros before Hnd.
  - by rewrite app_nil_r.
  - simpl. unfold_result. rewrite (add_site_step _ _ _ _ _ Hid Hname Hurl).
    rewrite od_set_fresh.
    + specialize (IH (before ++ [e])). rewrite <- app_assoc in IH.
      simpl in IH. specialize (IH Hnd).
      rewrite map_app in IH. exact IH.
    + rewrite map_app in Hnd. apply NoDup_app in Hnd as (_ & Hdisj & _).
      apply Forall_forall. intros x Hx. apply list_elem_of_In in Hx.
      apply in_map_iff in Hx as (b & <- & Hb). simpl.
      intros Heq. apply (Hdisj (fst (fst b))).
      * apply list_elem_of_In.
        by apply (in_map (fun x : string * json * json => fst (fst x))).
      * rewrite Heq. simpl. by left.
Qed.

(** [get_sites] on a well-formed answer: when the answer is
    [{"sites": {"site": [...]}}] and the listed sites have string ids,
    all different, the result lists them in the order of the answer, each
    id with its name and content URL. When the [site] key is missing the
    subscript raises KeyError: unlike the two other listings, this one is
    not tested for its key. Either way the one request sent is the GET of
    the site listing. *)
Theorem get_sites_lists_sites t (w : world S) (j found : json) :
  body (answer serve w (sites_request (JStr t))) = Some j ->
  py_getitem j "sites" = Ok found ->
  (forall items (entries : list (string * json * json)),
     py_getitem found "site" = Ok (JArr items) ->
     Forall2 (fun item e =>
                py_getitem item "id" = Ok (JStr (fst (fst e))) /\
                py_getitem item "name" = Ok (snd (fst e)) /\
                py_getitem item "contentUrl" = Ok (snd e)) items entries ->
     NoDup (map (fun e => fst (fst e)) entries) ->
     get_sites (JStr t) w
     = (Ok (map (fun e => (JStr (fst (fst e)),
                           {| name := snd (fst e); contentUrl := snd e |}))
                entries),
        deliver serve w (sites_request (JStr t)))) /\
  (forall fields,
     found = JObj fields -> assoc "site" fields = None ->
     get_sites (JStr t) w
     = (Raise (KeyError "site"), deliver serve w (sites_request (JStr t)))).
Proof.
  intros Hb Hj.
  assert (Hrun : get_sites (JStr t) w
                 = (items ← py_getitem found "site" ≫= py_iter;
                    foldR add_site items [],
                    deliver serve w (sites_request (JStr t)))).
  { open_get_sites. open_sites_request. unfold_M. simpl in *.
    unfold resp_json. rewrite Hb. simpl. unfold_result. rewrite Hj. simpl.
    by destruct (py_getitem found "site") as [site|]. }
  rewrite Hrun. split.
  - intros items entries Hsite Hitems Hnd. unfold_result. rewrite Hsite.
    simpl. pose proof (add_sites_listed items entries Hitems [] Hnd) as H.
    simpl in H. by rewrite H.
  - intros fields -> Hnone. unfold_result. simpl. by rewrite Hnone.
Qed.

(** A file without rows, and a file that is not there. When the file at
    [path] has no line, or its header only, or blank lines after it, the
    update prints its first line, sends nothing and ends well; when there
    is no file at [path], it ends with FileNotFoundError before printing
    anything. *)
Theorem no_rows_no_calls (path : string) (w : world S) :
  (forall f, files w !! path = Some f ->
     match f with
     | [] => True
     | _ :: lines => Forall (fun l => l = []) lines
     end ->
     update_datasources_from_csv path w
     = (Ok tt, printed w ("Collecting data from CSV [" +:+ path +:+ "]..."))) /\
  (files w !! path = None ->
     update_datasources_from_csv path w = (Raise FileNotFoundError, w)).
Proof.
  split.
  - intros f Hf Hblank.
    rewrite (update_datasources_run py_repr TABLEAU_SERVER_URL API_VERSION
               USERNAME PASSWORD S serve path w f Hf).
    assert (Hrows : DictReader f = []).
    { destruct f as [|fieldnames lines]; [done|]. simpl. clear Hf.
      induction Hblank as [|l lines -> _ IH]; [done|].
      rewrite filter_cons_False by (intros H; by apply H). exact IH. }
    by rewrite Hrows.
  - intros Hf. open_update_datasources. unfold_M. unfold read_csv.
    by rewrite Hf.
Qed.

End Outcomes.

(** * The further statements on sample inputs *)

Lemma runs_leave_other_files_alone_witness :
  files (snd (sample_export (sample_world sample_file))) !! "notes.txt"
  = files (sample_world sample_file) !! "notes.txt".
Proof.
  destruct (runs_leave_other_files_alone sample_repr sample_url sample_version
              "admin" "hunter2" nat listing_serve "datasources.csv"
              (sample_world sample_file)) as [_ H].
  apply H. discriminate.
Defined.

Lemma collected_credentials_filled_witness :
  (exists a u, username alice_update = Some (String a u)) /\
  (exists b p, password alice_update = Some (String b p)) /\
  (exists shown, redact (password alice_update) = Ok shown).
Proof.
  apply (collected_credentials_filled [sample_row 0]
           [ (Some "sales",
              {| site_id := Some "1"; site_name := Some "Sales";
                 datasources :=
                   [ (Some "d1",
                      {| datasource_name := Some "Orders";
                         connections := [alice_update] |}) ] |}) ]
           ltac:(vm_compute; reflexivity)
           (Some "sales") _ (Some "d1") _ alice_update
           ltac:(left; reflexivity) ltac:(left; reflexivity)
           ltac:(left; reflexivity)).
Defined.

Lemma plan_order_is_first_appearance_witness :
  exists updates,
    collect_updates sample_rows = Ok updates /\
    map fst updates = [Some "sales"; Some "ops"] /\
    map fst (datasources_of updates (Some "sales")) = [Some "d1"].
Proof.
  destruct (plan_order_is_first_appearance sample_rows)
    as (updates & Hrun & Hsites & Hds).
  - vm_compute. reflexivity.
  - exists updates. split; [exact Hrun|]. split.
    + rewrite Hsites. vm_compute. reflexivity.
    + rewrite Hds. vm_compute. reflexivity.
Defined.

Lemma reader_reads_eight_columns_witness :
  collect_updates [sample_row 0]
  = collect_updates
      [ mk_row header
          ["1"; "Sales"; "sales"; "d1"; "Orders"; "renamed"; "c1"; "mysql";
           "db2.local"; "3306"; "zoe"; "alice2"; "secret"] ].
Proof.
  apply reader_reads_eight_columns.
  constructor; [|constructor].
  intros k Hk. simpl in Hk.
  repeat (destruct Hk as [<-|Hk]; [vm_compute; reflexivity|]).
  destruct Hk.
Defined.

Lemma sign_in_failure_stops_updates_witness :
  push_updates sample_repr sample_url sample_version "admin" "hunter2"
    nat failing_serve
    [ (Some "sales", sales_site); (Some "ops", sales_site) ] (sample_world [])
  = (Raise (KeyError "credentials"),
     deliver failing_serve
       (printed (sample_world [])
          (nl +:+ "Updating connections for site Sales" +:+ nl
           +:+ "-------------------------------------------------"))
       (signin_request sample_url sample_version "admin" "hunter2"
                       (JStr "sales"))).
Proof.
  apply (sign_in_failure_stops_updates sample_repr sample_url
           sample_version "admin" "hunter2" nat failing_serve
           [] [(Some "ops", sales_site)] (Some "sales", sales_site)
           (sample_world []) (sample_world []) (KeyError "credentials"));
    reflexivity.
Defined.

Lemma unreadable_answer_stops_updates_witness :
  for_each nat [alice_update; alice_update]
    (update_connection sample_repr sample_url sample_version nat
       gateway_serve sales_site (JStr "t0k3n") (Some "d1") orders_datasource)
    (sample_world [])
  = (Raise JSONDecodeError,
     deliver gateway_serve (sample_world [])
       (put_request sample_url sample_version sales_site (JStr "t0k3n")
                    (Some "d1") alice_update)).
Proof.
  destruct (unreadable_answer_stops_updates sample_repr sample_url
              sample_version nat gateway_serve sales_site "t0k3n" (Some "d1")
              orders_datasource alice_update [alice_update]
              (sample_world []) eq_refl) as [H _].
  apply H. reflexivity.
Defined.

Lemma failed_listing_leaves_session_open_witness :
  fst (foldM nat
         (walk_site sample_repr sample_url sample_version "admin" "hunter2"
                    nat denying_serve)
         sample_sites [] (sample_world []))
  = Raise (KeyError "datasources") /\
  calls (sent (snd (foldM nat
         (walk_site sample_repr sample_url sample_version "admin" "hunter2"
                    nat denying_serve)
         sample_sites [] (sample_world []))))
  = [ (POST, "https://tableau.example.com/api/3.4/auth/signin");
      (GET, "https://tableau.example.com/api/3.4/sites/1/datasources") ].
Proof.
  destruct (failed_listing_leaves_session_open sample_repr sample_url
              sample_version "admin" "hunter2" nat denying_serve []
              (JStr "1") {| name := JStr "Sales"; contentUrl := JStr "sales" |}
              (tl sample_sites) (sample_world []) "t0k3n"
              (JObj [("error", JObj [("code", JStr "403004")])])
              (KeyError "datasources") eq_refl eq_refl eq_refl) as [H Hsent].
  change (foldM nat
            (walk_site sample_repr sample_url sample_version "admin"
                       "hunter2" nat denying_serve)
            sample_sites [] (sample_world []))
    with (foldM nat
            (walk_site sample_repr sample_url sample_version "admin"
                       "hunter2" nat denying_serve)
            ((JStr "1", {| name := JStr "Sales"; contentUrl := JStr "sales" |})
             :: tl sample_sites) [] (sample_world [])).
  rewrite H. cbn [fst snd]. split; [reflexivity|].
  unfold calls. rewrite Hsent. reflexivity.
Defined.

Lemma walker_records_belong_to_sites_witness :
  exists new,
    match fst sample_walk with Ok found => found | Raise _ => [] end
    = [] ++ new /\
    Forall (fun r => exists site, In site sample_sites /\
                       record_of_site (fst site) (snd site) r) new.
Proof.
  apply (walker_records_belong_to_sites sample_repr sample_url sample_version
           "admin" "hunter2" nat listing_serve sample_sites []
           _ (sample_world []) (snd sample_walk)).
  vm_compute. reflexivity.
Defined.


Lemma export_file_shape_witness :
  exists lines,
    files exported_world !! "datasources.csv" = Some (header :: lines) /\
    Forall blank_credentials lines /\
    last (stdout exported_world)
    = Some ("Wrote " +:+ decimal (Z.of_nat (length lines))
            +:+ " datasources to " +:+ "datasources.csv").
Proof.
  apply (export_file_shape sample_repr sample_url sample_version
           "admin" "hunter2" nat listing_serve
           "datasources.csv" (sample_world []) exported_world).
  vm_compute. reflexivity.
Defined.

Lemma unedited_export_is_refused_witness :
  exists lines,
    files exported_world !! "datasources.csv" = Some (header :: lines) /\
    update_datasources_from_csv sample_repr sample_url sample_version
      "admin" "hunter2" nat listing_serve "datasources.csv" exported_world
    = (match lines with
       | [] => Ok tt
       | _ :: _ => Raise (ValueError username_message)
       end,
       printed exported_world
         ("Collecting data from CSV [" +:+ "datasources.csv" +:+ "]...")).
Proof.
  apply (unedited_export_is_refused sample_repr sample_url sample_version
           "admin" "hunter2" nat listing_serve
           "datasources.csv" (sample_world []) exported_world).
  vm_compute. reflexivity.
Defined.

Lemma get_sites_lists_sites_witness :
  get_sites sample_url sample_version nat listing_serve (JStr "t0k3n")
            (sample_world [])
  = (Ok sample_sites,
     deliver listing_serve (sample_world [])
             (sites_request sample_url sample_version (JStr "t0k3n"))).
Proof.
  destruct (get_sites_lists_sites sample_url sample_version nat listing_serve
              "t0k3n" (sample_world [])
              (JObj [("sites", JObj [("site", JArr
                 [ JObj [("id", JStr "1"); ("name", JStr "Sales");
                         ("contentUrl", JStr "sales")];
                   JObj [("id", JStr "2"); ("name", JStr "Ops");
                         ("contentUrl", JStr "ops")] ])])])
              (JObj [("site", JArr
                 [ JObj [("id", JStr "1"); ("name", JStr "Sales");
                         ("contentUrl", JStr "sales")];
                   JObj [("id", JStr "2"); ("name", JStr "Ops");
                         ("contentUrl", JStr "ops")] ])])
              eq_refl eq_refl) as [H _].
  apply (H [ JObj [("id", JStr "1"); ("name", JStr "Sales");
                   ("contentUrl", JStr "sales")];
             JObj [("id", JStr "2"); ("name", JStr "Ops");
                   ("contentUrl", JStr "ops")] ]
           [ ("1", JStr "Sales", JStr "sales");
             ("2", JStr "Ops", JStr "ops") ]).
  - reflexivity.
  - repeat constructor.
  - repeat constructor; simpl; intros Hin;
      repeat (apply elem_of_cons in Hin as [Hin|Hin]; [discriminate|]);
      by apply elem_of_nil in Hin.
Defined.

Lemma no_rows_no_calls_witness :
  sample_update [header; []; []]
  = (Ok tt, printed (sample_world [header; []; []])
              "Collecting data from CSV [datasources.csv]...").
Proof.
  destruct (no_rows_no_calls sample_repr sample_url sample_version
              "admin" "hunter2" nat sample_serve "datasources.csv"
              (sample_world [header; []; []])) as [H _].
  apply (H [header; []; []]).
  - reflexivity.
  - repeat constructor.
Defined.
